(** * Print-and-play LaTeX generator

    Shallow embedding of [scripts/generate_latex_script.py]: the class
    [LatexFileGenerator], its eager directory check, the per-page markup
    emitters and the pagination loops.  LaTeX text is kept as [string],
    byte for byte as the Python raw strings have it; the directory is an
    explicit read-only oracle, and the single write at the end of
    [generate_latex_file], which an oracle lets succeed or fail, is
    returned as a log of written files. *)

From Stdlib Require Import String Ascii List Arith Bool Lia.
From Stdlib Require Import Permutation Sorted Orders Mergesort OrderedTypeEx.
From Stdlib Require Import RelationClasses.
Import ListNotations.
Open Scope list_scope.
Open Scope string_scope.

(** ** Python built-ins used by the script *)

Module Py.

(** [l[a:b]] for [0 <= a <= b]; like Python, it truncates at the end of
    the list instead of failing. *)
Definition slice {A : Type} (l : list A) (a b : nat) : list A :=
  firstn (b - a) (skipn a l).

(** [range(n)]. *)
Definition range (n : nat) : list nat := seq 0 n.

(** [s.replace(c, by)] for a pattern [c] of one character: every
    occurrence of [c] is rewritten, left to right. *)
Fixpoint replace (c : ascii) (by_ : string) (s : string) : string :=
  match s with
  | EmptyString => EmptyString
  | String a s' =>
      if Ascii.eqb a c then by_ ++ replace c by_ s'
      else String a (replace c by_ s')
  end.

(** ["".join(parts)]. *)
Definition join (parts : list string) : string :=
  fold_right String.append "" parts.

(** The line feed that the non-raw literal ["\n"] denotes. *)
Definition nl : string := String (ascii_of_nat 10) EmptyString.

End Py.

(** [list.sort()] on paths: a merge sort by the lexicographic order of the
    path text.  [pathlib] compares paths component by component; for files
    of one directory, whose names hold no separator, that is the order of
    the full path strings. *)
Module PathOrder <: TotalLeBool.
Definition t := string.
Definition leb := String.leb.
Lemma leb_total : forall a1 a2, leb a1 a2 = true \/ leb a2 a1 = true.
Proof. exact String.leb_total. Qed.
End PathOrder.

Module PathSort := Sort PathOrder.

(** ** The directory, as the script observes it *)

(** [fs_exists p] is [Path(p).exists()]; [fs_glob d ext] is the listing
    [Path(d).glob("*" + ext)], in whatever order the system yields it. *)
Record FileSystem := {
  fs_exists : string -> bool;
  fs_glob : string -> string -> list string
}.

(** [p] ends with the separator, as the root directory does. *)
Fixpoint ends_with_separator (p : string) : bool :=
  match p with
  | EmptyString => false
  | String c EmptyString => Ascii.eqb c "/"
  | String _ p' => ends_with_separator p'
  end.

(** What [Path(p) / name] puts before [name] on a POSIX path, for [p] the
    text of a path object: nothing for the current directory ["."] (which
    is also how the empty path reads), [p] itself when it ends with the
    separator, and [p] followed by the separator otherwise. *)
Definition dir_prefix (p : string) : string :=
  if String.eqb p "" || String.eqb p "." then ""
  else if ends_with_separator p then p
  else p ++ "/".

(** [Path(p) / name], for a plain file name [name]. *)
Definition joinpath (p name : string) : string := dir_prefix p ++ name.

(** [Path.with_suffix(ext)] on a last component that has no suffix yet,
    which is the case of every name the script passes. *)
Definition with_suffix (p ext : string) : string := p ++ ext.

(** The exceptions of a run: the [ValueError] of the directory check, and
    the [OSError] of an [open] that fails. *)
Inductive exn :=
| ValueError (msg : string)
| OSError (filename : string).

(** Files written by a run, oldest first: [(path, content)]. *)
Definition written := list (string * string).

(** ** class LatexFileGenerator *)

(** [path_to_root_dir] holds the text of [Path(path_to_root_dir)], which is
    what the script joins names to and prints in its messages. *)
Record LatexFileGenerator := {
  path_to_root_dir : string;
  output_path : string;
  is_a4 : bool;
  has_bleed : bool;
  rotate_amd_cards : bool
}.

Definition sanitize_path (p : string) : string :=
  Py.replace " " "\ " (Py.replace "\" "/" p).

Definition singleton_assets : list string :=
  ["ability_card_back"; "amd_back"; "non_amd_back"; "character_token";
   "character_mat"; "character_mat_back"; "character_mini"; "character_sheet"].

(** The [for filename in [...]] loop of [check_root_dir_consistency]: the
    first name missing under both suffixes raises. *)
Fixpoint check_files (fs : FileSystem) (root : string) (names : list string)
  : exn + unit :=
  match names with
  | [] => inr tt
  | filename :: rest =>
      if negb (fs_exists fs (with_suffix (joinpath root filename) ".jpg"))
         && negb (fs_exists fs (with_suffix (joinpath root filename) ".png"))
      then inl (ValueError ("Missing file " ++ filename
                            ++ " (JPG or PNG format) in " ++ root))
      else check_files fs root rest
  end.

Definition check_root_dir_consistency (fs : FileSystem) (root : string)
  : exn + unit :=
  if negb (fs_exists fs (joinpath root "AbilityCards")) then
    inl (ValueError ("Missing folder with the name AbilityCards in " ++ root))
  else if negb (fs_exists fs (joinpath root "AMD")) then
    inl (ValueError ("Missing folder with the name AMD in " ++ root))
  else check_files fs root singleton_assets.

(** [__init__]: stores the arguments, fixes [rotate_amd_cards] to [True]
    and runs the directory check, whose exception aborts construction. *)
Definition init (fs : FileSystem) (path_to_root_dir output_path : string)
  (is_a4 has_bleed : bool) : exn + LatexFileGenerator :=
  match check_root_dir_consistency fs path_to_root_dir with
  | inl e => inl e
  | inr _ => inr {| path_to_root_dir := path_to_root_dir;
                    output_path := output_path;
                    is_a4 := is_a4;
                    has_bleed := has_bleed;
                    rotate_amd_cards := true |}
  end.

Definition header (self : LatexFileGenerator) : string :=
  let header_string := "\documentclass[12pt," in
  let header_string :=
    if is_a4 self then header_string ++ "a4paper"
    else header_string ++ "letterpaper" in
  header_string ++ ",notitlepage,landscape]{article}
\usepackage{graphicx}
\usepackage{subcaption}
\usepackage{pdflscape}
\usepackage[space]{grffile}

\pagenumbering{gobble}

\addtolength{\topmargin}{-3.4cm}
\begin{document}

".

Definition end_document (self : LatexFileGenerator) : string :=
  "\end{document}".

Definition character_sheet (self : LatexFileGenerator) (path_to_sheet : string)
  : string :=
  let res := "\clearpage

\begin{figure}[ht]
\centering
\makebox[1\textwidth]{
\includegraphics[height=14cm]{" ++ path_to_sheet ++ "}\hspace{0cm}%
\includegraphics[height=14cm]{" ++ path_to_sheet ++ "}
}
\end{figure}

" in
  res ++ res.

Definition amd_cards_one_page (self : LatexFileGenerator)
  (amd_paths : list string) (token_path : option string) : string :=
  let res := "\begin{figure}[ht]
  \centering
\setkeys{Gin}{width=6.9cm}
\makebox[1\textwidth]{
" in
  let add_rotation := "" in
  let add_rotation :=
    if rotate_amd_cards self then "angle=90, " else add_rotation in
  let res :=
    fold_left (fun res i =>
      let res := res ++ "  \includegraphics[" ++ add_rotation
                     ++ "width=4.4cm]{" ++ nth i amd_paths "" ++ "}" in
      let res :=
        if negb (Nat.eqb i (length amd_paths - 1)) && negb (Nat.eqb i 4)
        then res ++ "\hspace{0cm}%" ++ Py.nl else res in
      if Nat.eqb i 4 then res ++ "
}
\makebox[\textwidth]{
" else res)
      (Py.range (length amd_paths)) res in
  let res :=
    match token_path with
    | Some token_path =>
        let res := res ++ "
}
\makebox[1\textwidth]{" ++ Py.nl in
        fold_left (fun res i =>
          let res := res ++ "  \includegraphics[width=1.45cm]{"
                         ++ token_path ++ "}" in
          let res := res ++ "\hspace{0cm}%" ++ Py.nl in
          let res := res ++ "  \scalebox{-1}[1]{\includegraphics[width=1.45cm]{"
                         ++ token_path ++ "}}" in
          if negb (Nat.eqb i 9) then res ++ "\hspace{0cm}%" ++ Py.nl else res)
          (Py.range 5) res
    | None => res
    end in
  res ++ "
}
\end{figure}

\clearpage

".

(** [num_pages] of [amd_cards]: the ceiling of [n / 10]. *)
Definition amd_num_pages (n : nat) : nat :=
  let cards_per_page := 10 in
  (n + cards_per_page - 1) / cards_per_page.

Definition amd_cards (self : LatexFileGenerator) (amd_paths : list string)
  (character_token_path : string) : string :=
  let res := "" in
  let n := length amd_paths in
  let cards_per_page := 10 in
  let num_pages := amd_num_pages n in
  fold_left (fun res i =>
    let amds_in_page :=
      Py.slice amd_paths (cards_per_page * i) (cards_per_page * (i + 1)) in
    if negb (Nat.eqb i (num_pages - 1))
    then res ++ amd_cards_one_page self amds_in_page None
    else res ++ amd_cards_one_page self amds_in_page
                  (Some character_token_path))
    (Py.range num_pages) res.

(** The local [cards_per_line], computed alike in [ability_cards_one_page]
    and in [ability_cards]. *)
Definition cards_per_line (self : LatexFileGenerator) : nat :=
  let cards_per_line := 4 in
  if negb (is_a4 self) && has_bleed self then 3 else cards_per_line.

Definition ability_cards_one_page (self : LatexFileGenerator)
  (card_paths : list string) : string :=
  let res := "\begin{figure}[ht]
  \centering
\setkeys{Gin}{width=" in
  let res := if has_bleed self then res ++ "6.99cm" else res ++ "6.35cm" in
  let res := res ++ "}
\makebox[1\textwidth]{
" in
  let cards_per_line := cards_per_line self in
  let res :=
    fold_left (fun res i =>
      let res := res ++ "   \includegraphics{" ++ nth i card_paths "" ++ "}" in
      let res :=
        if negb (Nat.eqb i (length card_paths - 1))
           && negb (Nat.eqb i (cards_per_line - 1))
        then res ++ "\hspace{0cm}%" ++ Py.nl else res in
      if Nat.eqb i (cards_per_line - 1) then res ++ "
}
\makebox[\textwidth]{
" else res)
      (Py.range (length card_paths)) res in
  res ++ "
}
\end{figure}

\clearpage

".

Definition ability_cards (self : LatexFileGenerator) (card_paths : list string)
  (ability_card_back : string) : string :=
  let cards_per_line := cards_per_line self in
  let res := "" in
  fold_left (fun res i =>
    let cards_in_page :=
      Py.slice card_paths (2 * cards_per_line * i)
                          (2 * cards_per_line * (i + 1)) in
    let res := res ++ ability_cards_one_page self cards_in_page in
    res ++ ability_cards_one_page self
             (map (fun _ => ability_card_back)
                  (Py.range (length cards_in_page))))
    (Py.range (length card_paths / (2 * cards_per_line) + 1)) res.

Definition character_mat (self : LatexFileGenerator)
  (mat_front_path mat_back_path characer_mini_path : string) : string :=
  let res := "\begin{figure}[ht]
\centering
\makebox[1\textwidth]{
\includegraphics[width=14.5cm,height=9.5cm]{" ++ mat_front_path ++ "}\hspace{0cm}%
}
\makebox[1\textwidth]{
	\includegraphics[width=4cm]{" ++ characer_mini_path ++ "}
}
\end{figure}

\clearpage

\begin{figure}[ht]
\centering
\makebox[1\textwidth]{
\includegraphics[width=14.5cm,height=9.5cm]{" ++ mat_back_path ++ "}%
}
\makebox[1\textwidth]{
\scalebox{-1}[1]{\includegraphics[width=4cm]{" ++ characer_mini_path ++ "}}\hspace{0cm}%
}
\end{figure}

\clearpage" in
  res.

(** The idiom repeated for every singleton asset: take [name.jpg], and
    fall back to [name.png] when the former does not exist. *)
Definition jpg_or_png (fs : FileSystem) (root name : string) : string :=
  let p := with_suffix (joinpath root name) ".jpg" in
  if negb (fs_exists fs p) then with_suffix (joinpath root name) ".png" else p.

(** [list(dir.glob("*.jpg")) + list(dir.glob("*.png"))], then [.sort()]. *)
Definition sorted_images (fs : FileSystem) (dir : string) : list string :=
  PathSort.sort (fs_glob fs dir ".jpg" ++ fs_glob fs dir ".png")%list.

(** The list [all_amd_cards] that [generate_latex_file] hands to
    [amd_cards]. *)
Definition all_amd_cards (fs : FileSystem) (self : LatexFileGenerator)
  : list string :=
  let root := path_to_root_dir self in
  let amd_paths := sorted_images fs (joinpath root "AMD") in
  let amd_back_path := jpg_or_png fs root "amd_back" in
  let amd_backs := map (fun _ => amd_back_path) amd_paths in
  let non_amd_paths := sorted_images fs (joinpath root "NON_AMD") in
  let non_amd_back_path := jpg_or_png fs root "non_amd_back" in
  let non_amd_backs := map (fun _ => non_amd_back_path) non_amd_paths in
  let all_amd := (amd_paths ++ non_amd_paths)%list in
  let all_backs := (amd_backs ++ non_amd_backs)%list in
  map sanitize_path (all_amd ++ all_backs)%list.

(** The string [latex_code] that [generate_latex_file] accumulates. *)
Definition latex_code (fs : FileSystem) (self : LatexFileGenerator) : string :=
  let root := path_to_root_dir self in
  let latex_code := header self in
  (* Ability cards *)
  let card_paths := sorted_images fs (joinpath root "AbilityCards") in
  let card_back_path := jpg_or_png fs root "ability_card_back" in
  let card_paths := map sanitize_path card_paths in
  let card_back_path := sanitize_path card_back_path in
  let latex_code := latex_code ++ ability_cards self card_paths card_back_path in
  (* Character tokens *)
  let token_path := sanitize_path (jpg_or_png fs root "character_token") in
  (* Arranging amd and non_amd *)
  let latex_code :=
    latex_code ++ amd_cards self (all_amd_cards fs self) token_path in
  (* Character mat and mini *)
  let mat_mini_paths :=
    map (fun filename => jpg_or_png fs root filename)
        ["character_mat"; "character_mat_back"; "character_mini"] in
  let mat_mini_paths := map sanitize_path mat_mini_paths in
  let latex_code :=
    latex_code ++ character_mat self (nth 0 mat_mini_paths "")
                    (nth 1 mat_mini_paths "") (nth 2 mat_mini_paths "") in
  (* Character sheet *)
  let sheet := sanitize_path (jpg_or_png fs root "character_sheet") in
  let latex_code := latex_code ++ character_sheet self sheet in
  latex_code ++ end_document self.

(** [generate_latex_file]: builds the whole text, then opens the output
    file and writes it.  [can_write] tells which paths [open(path, "w")]
    can open; where it cannot, [open] raises and nothing is written. *)
Definition generate_latex_file (can_write : string -> bool) (fs : FileSystem)
  (self : LatexFileGenerator) : (exn + unit) * written :=
  let latex_code := latex_code fs self in
  if can_write (output_path self)
  then (inr tt, [(output_path self, latex_code)])
  else (inl (OSError (output_path self)), []).

(** The module body: construct the generator, then generate.  The result
    pairs the outcome with the files written. *)
Definition run (can_write : string -> bool) (fs : FileSystem)
  (path_to_root_dir output_path : string) (is_A4 with_bleed : bool)
  : (exn + unit) * written :=
  match init fs path_to_root_dir output_path is_A4 with_bleed with
  | inl e => (inl e, [])
  | inr filegen => generate_latex_file can_write fs filegen
  end.

(** The module body where the output file can be opened. *)
Definition main (fs : FileSystem) (path_to_root_dir output_path : string)
  (is_A4 with_bleed : bool) : (exn + unit) * written :=
  run (fun _ => true) fs path_to_root_dir output_path is_A4 with_bleed.

(** ** The pages the two pagination loops cut *)

(** [cards_in_page] at each turn of the loop of [ability_cards]. *)
Definition ability_pages (self : LatexFileGenerator) (card_paths : list string)
  : list (list string) :=
  let cards_per_line := cards_per_line self in
  map (fun i => Py.slice card_paths (2 * cards_per_line * i)
                                    (2 * cards_per_line * (i + 1)))
      (Py.range (length card_paths / (2 * cards_per_line) + 1)).

(** [amds_in_page] at each turn of the loop of [amd_cards]. *)
Definition amd_pages (amd_paths : list string) : list (list string) :=
  let cards_per_page := 10 in
  map (fun i => Py.slice amd_paths (cards_per_page * i)
                                   (cards_per_page * (i + 1)))
      (Py.range (amd_num_pages (length amd_paths))).

(** ** The emitted text read as markup

    A second reading of what the emitters produce: literal template text
    and image inclusions, the latter plain ([\includegraphics]) or
    mirrored ([\scalebox{-1}[1]{\includegraphics...}]).  [render] gives
    back the text; the [_markup] functions below are proved to render to
    the strings the emitters above build. *)

Inductive markup :=
| Raw (text : string)
| Graphics (mirrored : bool) (options path : string).

Definition render_markup (m : markup) : string :=
  match m with
  | Raw text => text
  | Graphics false options path =>
      "\includegraphics" ++ options ++ "{" ++ path ++ "}"
  | Graphics true options path =>
      "\scalebox{-1}[1]{\includegraphics" ++ options ++ "{" ++ path ++ "}}"
  end.

Definition render (doc : list markup) : string :=
  Py.join (map render_markup doc).

Definition markup_eqb (a b : markup) : bool :=
  match a, b with
  | Raw s, Raw t => String.eqb s t
  | Graphics m o p, Graphics m' o' p' =>
      Bool.eqb m m' && String.eqb o o' && String.eqb p p'
  | _, _ => false
  end.

(** How many times the item [m] stands in [doc]. *)
Definition occurrences (m : markup) (doc : list markup) : nat :=
  length (filter (markup_eqb m) doc).

Definition is_graphics (m : markup) : bool :=
  match m with Graphics _ _ _ => true | Raw _ => false end.

(** The image inclusions of [doc], in document order. *)
Definition graphics (doc : list markup) : list markup := filter is_graphics doc.

(** The options under which each kind of image is included. *)
Definition ability_options : string := "".
Definition amd_options (self : LatexFileGenerator) : string :=
  "[" ++ (if rotate_amd_cards self then "angle=90, " else "") ++ "width=4.4cm]".
Definition token_options : string := "[width=1.45cm]".
Definition mat_options : string := "[width=14.5cm,height=9.5cm]".
Definition mini_options : string := "[width=4cm]".
Definition sheet_options : string := "[height=14cm]".

Definition has_options (o : string) (m : markup) : bool :=
  match m with
  | Graphics _ o' _ => String.eqb o o'
  | Raw _ => false
  end.

(** The character-token inclusions of [doc], in document order. *)
Definition token_images (doc : list markup) : list markup :=
  filter (has_options token_options) doc.

(** The AMD-category card inclusions of [doc], in document order. *)
Definition amd_card_images (self : LatexFileGenerator) (doc : list markup)
  : list markup :=
  filter (has_options (amd_options self)) doc.

Definition hspace : markup := Raw ("\hspace{0cm}%" ++ Py.nl).

Definition row_break : markup := Raw "
}
\makebox[\textwidth]{
".

Definition page_end : markup := Raw "
}
\end{figure}

\clearpage

".

(** One turn of the card loop of [amd_cards_one_page]. *)
Definition amd_card_markup (self : LatexFileGenerator) (amd_paths : list string)
  (i : nat) : list markup :=
  ([Raw "  "; Graphics false (amd_options self) (nth i amd_paths "")]
   ++ (if negb (Nat.eqb i (length amd_paths - 1)) && negb (Nat.eqb i 4)
       then [hspace] else [])
   ++ (if Nat.eqb i 4 then [row_break] else []))%list.

(** One turn of the token loop of [amd_cards_one_page]. *)
Definition token_pair_markup (token_path : string) (i : nat) : list markup :=
  ([Raw "  "; Graphics false token_options token_path; hspace;
    Raw "  "; Graphics true token_options token_path]
   ++ (if negb (Nat.eqb i 9) then [hspace] else []))%list.

Definition amd_cards_one_page_markup (self : LatexFileGenerator)
  (amd_paths : list string) (token_path : option string) : list markup :=
  ([Raw "\begin{figure}[ht]
  \centering
\setkeys{Gin}{width=6.9cm}
\makebox[1\textwidth]{
"]
   ++ flat_map (amd_card_markup self amd_paths) (Py.range (length amd_paths))
   ++ match token_path with
      | Some token_path =>
          Raw ("
}
\makebox[1\textwidth]{" ++ Py.nl)
          :: flat_map (token_pair_markup token_path) (Py.range 5)
      | None => []
      end
   ++ [page_end])%list.

Definition amd_cards_markup (self : LatexFileGenerator)
  (amd_paths : list string) (character_token_path : string) : list markup :=
  let num_pages := amd_num_pages (length amd_paths) in
  flat_map (fun i =>
    amd_cards_one_page_markup self
      (Py.slice amd_paths (10 * i) (10 * (i + 1)))
      (if negb (Nat.eqb i (num_pages - 1)) then None
       else Some character_token_path))
    (Py.range num_pages).

(** One turn of the loop of [ability_cards_one_page]. *)
Definition ability_card_markup (self : LatexFileGenerator)
  (card_paths : list string) (i : nat) : list markup :=
  ([Raw "   "; Graphics false ability_options (nth i card_paths "")]
   ++ (if negb (Nat.eqb i (length card_paths - 1))
          && negb (Nat.eqb i (cards_per_line self - 1))
       then [hspace] else [])
   ++ (if Nat.eqb i (cards_per_line self - 1) then [row_break] else []))%list.

Definition ability_cards_one_page_markup (self : LatexFileGenerator)
  (card_paths : list string) : list markup :=
  ([Raw ("\begin{figure}[ht]
  \centering
\setkeys{Gin}{width=" ++ (if has_bleed self then "6.99cm" else "6.35cm") ++ "}
\makebox[1\textwidth]{
")]
   ++ flat_map (ability_card_markup self card_paths)
        (Py.range (length card_paths))
   ++ [page_end])%list.

Definition ability_cards_markup (self : LatexFileGenerator)
  (card_paths : list string) (ability_card_back : string) : list markup :=
  flat_map (fun cards_in_page =>
    (ability_cards_one_page_markup self cards_in_page
     ++ ability_cards_one_page_markup self
          (repeat ability_card_back (length cards_in_page)))%list)
    (ability_pages self card_paths).

Definition character_mat_markup (self : LatexFileGenerator)
  (mat_front_path mat_back_path characer_mini_path : string) : list markup :=
  [Raw "\begin{figure}[ht]
\centering
\makebox[1\textwidth]{
";
   Graphics false mat_options mat_front_path;
   Raw "\hspace{0cm}%
}
\makebox[1\textwidth]{
	";
   Graphics false mini_options characer_mini_path;
   Raw "
}
\end{figure}

\clearpage

\begin{figure}[ht]
\centering
\makebox[1\textwidth]{
";
   Graphics false mat_options mat_back_path;
   Raw "%
}
\makebox[1\textwidth]{
";
   Graphics true mini_options characer_mini_path;
   Raw "\hspace{0cm}%
}
\end{figure}

\clearpage"].

(** The block [res] of [character_sheet], which the function returns
    twice. *)
Definition character_sheet_page_markup (path_to_sheet : string) : list markup :=
  [Raw "\clearpage

\begin{figure}[ht]
\centering
\makebox[1\textwidth]{
";
   Graphics false sheet_options path_to_sheet;
   Raw "\hspace{0cm}%
";
   Graphics false sheet_options path_to_sheet;
   Raw "
}
\end{figure}

"].

Definition character_sheet_markup (self : LatexFileGenerator)
  (path_to_sheet : string) : list markup :=
  (character_sheet_page_markup path_to_sheet
   ++ character_sheet_page_markup path_to_sheet)%list.

(** The paths [generate_latex_file] resolves, after [sanitize_path]. *)
Definition ability_card_paths (fs : FileSystem) (self : LatexFileGenerator)
  : list string :=
  map sanitize_path
    (sorted_images fs (joinpath (path_to_root_dir self) "AbilityCards")).

Definition asset_path (fs : FileSystem) (self : LatexFileGenerator)
  (name : string) : string :=
  sanitize_path (jpg_or_png fs (path_to_root_dir self) name).

(** The four sections of the document, as markup. *)
Definition ability_section (fs : FileSystem) (self : LatexFileGenerator)
  : list markup :=
  ability_cards_markup self (ability_card_paths fs self)
    (asset_path fs self "ability_card_back").

Definition amd_section (fs : FileSystem) (self : LatexFileGenerator)
  : list markup :=
  amd_cards_markup self (all_amd_cards fs self)
    (asset_path fs self "character_token").

Definition mat_section (fs : FileSystem) (self : LatexFileGenerator)
  : list markup :=
  character_mat_markup self (asset_path fs self "character_mat")
    (asset_path fs self "character_mat_back")
    (asset_path fs self "character_mini").

Definition sheet_section (fs : FileSystem) (self : LatexFileGenerator)
  : list markup :=
  character_sheet_markup self (asset_path fs self "character_sheet").

Definition document_markup (fs : FileSystem) (self : LatexFileGenerator)
  : list markup :=
  ([Raw (header self)] ++ ability_section fs self ++ amd_section fs self
   ++ mat_section fs self ++ sheet_section fs self
   ++ [Raw (end_document self)])%list.

(** [needle in hay]. *)
Definition contains (needle hay : string) : bool :=
  match String.index 0 needle hay with Some _ => true | None => false end.

(** ** Notions the properties are stated with *)

(** What the script lists in [dir], before sorting. *)
Definition listing (fs : FileSystem) (dir : string) : list string :=
  (fs_glob fs dir ".jpg" ++ fs_glob fs dir ".png")%list.

(** [a] stands before or at [b] in the lexicographic order of paths. *)
Definition path_le (a b : string) : Prop := String.leb a b = true.

(** [name] is present under neither supported suffix. *)
Definition missing_file (fs : FileSystem) (root name : string) : Prop :=
  fs_exists fs (with_suffix (joinpath root name) ".jpg") = false
  /\ fs_exists fs (with_suffix (joinpath root name) ".png") = false.

(** The five token pairs that close the last AMD-category page. *)
Definition token_pairs (token_path : string) : list markup :=
  concat (repeat [Graphics false token_options token_path;
                  Graphics true token_options token_path] 5).

(** Position, in [all_amd_cards], of the back-plate that [all_backs]
    pairs with the front at position [i], when there are [n] fronts. *)
Definition own_back_index (n i : nat) : nat := n + i.

(** Two positions of a sequence are next to each other. *)
Definition adjacent (i j : nat) : Prop := j = S i \/ i = S j.

(** [s] holds neither a space nor a backslash. *)
Fixpoint plain (s : string) : bool :=
  match s with
  | EmptyString => true
  | String c s' =>
      negb (Ascii.eqb c " ") && negb (Ascii.eqb c "\") && plain s'
  end.

(** [s] holds no backslash. *)
Fixpoint no_backslash (s : string) : bool :=
  match s with
  | EmptyString => true
  | String c s' => negb (Ascii.eqb c "\") && no_backslash s'
  end.

(** Every backslash of [s] is followed by a space and every space stands
    right behind such a backslash: [s] holds no raw space, and no
    backslash that could open a command. *)
Fixpoint well_escaped (s : string) : bool :=
  match s with
  | EmptyString => true
  | String c s' =>
      if Ascii.eqb c "\" then
        match s' with
        | String c' s'' => Ascii.eqb c' " " && well_escaped s''
        | EmptyString => false
        end
      else negb (Ascii.eqb c " ") && well_escaped s'
  end.

(** An image inclusion whose path is well escaped; template text passes. *)
Definition path_escaped (m : markup) : Prop :=
  match m with
  | Graphics _ _ path => well_escaped path = true
  | Raw _ => True
  end.

(** One row of images: each behind its indent, [hspace] between
    neighbours and none after the last. *)
Fixpoint image_row (indent options : string) (paths : list string)
  : list markup :=
  match paths with
  | [] => []
  | path :: rest =>
      Raw indent :: Graphics false options path
      :: match rest with
         | [] => []
         | _ :: _ => hspace :: image_row indent options rest
         end
  end.

(** The row of tokens: five times the token, a separator, the mirrored
    token, a separator. *)
Definition token_row (token_path : string) : list markup :=
  concat (repeat [Raw "  "; Graphics false token_options token_path; hspace;
                  Raw "  "; Graphics true token_options token_path; hspace] 5).

(** The folders and files the check asks for are all there. *)
Definition complete_directory (fs : FileSystem) (root : string) : Prop :=
  fs_exists fs (joinpath root "AbilityCards") = true
  /\ fs_exists fs (joinpath root "AMD") = true
  /\ forall name, In name singleton_assets ->
       fs_exists fs (with_suffix (joinpath root name) ".jpg") = true
       \/ fs_exists fs (with_suffix (joinpath root name) ".png") = true.

(** ** Sample directories *)

(** A complete class folder: two ability cards, three AMD cards (listed
    out of order, one with a space in its name), no NON_AMD card, and
    [character_mat] present as PNG only. *)
Definition sample_fs : FileSystem :=
  {| fs_exists := fun p => negb (String.eqb p "r/character_mat.jpg");
     fs_glob := fun d e =>
       if String.eqb d "r/AMD" then
         if String.eqb e ".jpg" then ["r/AMD/b c.jpg"; "r/AMD/a.jpg"]
         else ["r/AMD/a.png"]
       else if String.eqb d "r/AbilityCards" then
         if String.eqb e ".jpg"
         then ["r/AbilityCards/2.jpg"; "r/AbilityCards/1.jpg"] else []
       else [] |}.

Definition sample_generator : LatexFileGenerator :=
  {| path_to_root_dir := "r"; output_path := "out.tex"; is_a4 := true;
     has_bleed := true; rotate_amd_cards := true |}.

(** A complete class folder with a single AMD card and nothing else to
    paginate. *)
Definition one_amd_fs : FileSystem :=
  {| fs_exists := fun _ => true;
     fs_glob := fun d e =>
       if String.eqb d "r/AMD" && String.eqb e ".jpg" then ["r/AMD/a.jpg"]
       else [] |}.

(** A complete class folder whose three card folders are all empty. *)
Definition empty_fs : FileSystem :=
  {| fs_exists := fun _ => true; fs_glob := fun _ _ => [] |}.

(** A folder that lacks the [AMD] subfolder. *)
Definition no_amd_folder_fs : FileSystem :=
  {| fs_exists := fun p => negb (String.eqb p "r/AMD");
     fs_glob := fun _ _ => [] |}.

(** Eight ability cards: exactly one full A4 page. *)
Definition eight_cards : list string :=
  ["c1.jpg"; "c2.jpg"; "c3.jpg"; "c4.jpg"; "c5.jpg"; "c6.jpg"; "c7.jpg"; "c8.jpg"].

(** The same files listed in two orders: the same text. *)
Definition sample_fs_reordered : FileSystem :=
  {| fs_exists := fs_exists sample_fs;
     fs_glob := fun d e => rev (fs_glob sample_fs d e) |}.

(** * Properties *)

(** ** Strings and lists *)

Lemma append_assoc (a b c : string) : (a ++ b) ++ c = a ++ (b ++ c).
Proof. induction a as [|x a IH]; simpl; [reflexivity | now rewrite IH]. Qed.

Lemma append_nil_r (a : string) : a ++ "" = a.
Proof. induction a as [|x a IH]; simpl; [reflexivity | now rewrite IH]. Qed.

Lemma append_inv_head (a x y : string) : a ++ x = a ++ y -> x = y.
Proof.
  induction a as [|c a IH]; simpl; intros H; [exact H|].
  injection H as H. now apply IH.
Qed.

Lemma replace_append (c : ascii) (by_ s1 s2 : string) :
  Py.replace c by_ (s1 ++ s2) = Py.replace c by_ s1 ++ Py.replace c by_ s2.
Proof.
  induction s1 as [|a s1 IH]; simpl; [reflexivity|].
  destruct (Ascii.eqb a c); rewrite IH; simpl;
    [now rewrite append_assoc | reflexivity].
Qed.

Lemma sanitize_path_append (s1 s2 : string) :
  sanitize_path (s1 ++ s2) = sanitize_path s1 ++ sanitize_path s2.
Proof. unfold sanitize_path. now rewrite !replace_append. Qed.

Lemma join_app (l1 l2 : list string) :
  Py.join (l1 ++ l2) = Py.join l1 ++ Py.join l2.
Proof.
  induction l1 as [|x l1 IH]; simpl; [reflexivity|].
  unfold Py.join in *. simpl. now rewrite IH, append_assoc.
Qed.

Lemma render_app (d1 d2 : list markup) :
  render (d1 ++ d2) = render d1 ++ render d2.
Proof. unfold render. now rewrite map_app, join_app. Qed.

Lemma render_flat_map {A : Type} (f : A -> list markup) (l : list A) :
  render (flat_map f l) = Py.join (map (fun x => render (f x)) l).
Proof.
  induction l as [|x l IH]; simpl; [reflexivity|].
  rewrite render_app, IH. reflexivity.
Qed.

(** A loop whose body only appends to its accumulator yields the
    accumulator followed by the pieces, in order. *)
Lemma fold_left_append {A : Type} (body : string -> A -> string)
  (piece : A -> string) (l : list A) :
  (forall res x, body res x = res ++ piece x) ->
  forall res, fold_left body l res = res ++ Py.join (map piece l).
Proof.
  intros Hbody. induction l as [|x l IH]; intros res; simpl.
  - now rewrite append_nil_r.
  - rewrite IH, Hbody, append_assoc. reflexivity.
Qed.

(** [joinpath] on the shapes a path object's text can take. *)
Example joinpath_cases :
  joinpath "r" "AMD" = "r/AMD" /\ joinpath "a/b" "AMD" = "a/b/AMD"
  /\ joinpath "." "AMD" = "AMD" /\ joinpath "/" "AMD" = "/AMD".
Proof. repeat split. Qed.

(** ** The markup reading renders to the emitted text *)

Ltac unfold_render :=
  cbn [render Py.join map fold_right render_markup app];
  unfold hspace, row_break, page_end;
  cbn [render Py.join map fold_right render_markup app].

Ltac same_text :=
  unfold_render; rewrite ?append_assoc; rewrite ?append_nil_r; reflexivity.

Lemma render_amd_cards_one_page (self : LatexFileGenerator)
  (amd_paths : list string) (token_path : option string) :
  render (amd_cards_one_page_markup self amd_paths token_path)
  = amd_cards_one_page self amd_paths token_path.
Proof.
  unfold amd_cards_one_page, amd_cards_one_page_markup. cbv zeta.
  rewrite (fold_left_append _
             (fun i => render (amd_card_markup self amd_paths i))).
  2:{ intros res i. unfold amd_card_markup, amd_options.
      destruct (rotate_amd_cards self);
        destruct (negb (Nat.eqb i (length amd_paths - 1)) && negb (Nat.eqb i 4));
        destruct (Nat.eqb i 4); same_text. }
  rewrite !render_app, render_flat_map.
  destruct token_path as [token_path|].
  - rewrite (fold_left_append _
               (fun i => render (token_pair_markup token_path i))).
    2:{ intros res i. unfold token_pair_markup, token_options.
        destruct (negb (Nat.eqb i 9)); same_text. }
    change (Raw ?t :: flat_map ?f ?l) with ([Raw t] ++ flat_map f l)%list.
    rewrite render_app, render_flat_map. same_text.
  - same_text.
Qed.

Lemma map_const_seq {A : Type} (x : A) (n s : nat) :
  map (fun _ => x) (seq s n) = repeat x n.
Proof.
  revert s. induction n as [|n IH]; intros s; simpl; [reflexivity|].
  now rewrite IH.
Qed.

(** [amd_cards] is the text of its pages, one after the other; the token
    argument is passed at index [num_pages - 1] only. *)
Lemma amd_cards_by_index (self : LatexFileGenerator) (amd_paths : list string)
  (character_token_path : string) :
  amd_cards self amd_paths character_token_path
  = Py.join
      (map (fun i =>
              amd_cards_one_page self
                (Py.slice amd_paths (10 * i) (10 * (i + 1)))
                (if negb (Nat.eqb i (amd_num_pages (length amd_paths) - 1))
                 then None else Some character_token_path))
           (Py.range (amd_num_pages (length amd_paths)))).
Proof.
  unfold amd_cards. cbv zeta.
  rewrite (fold_left_append _
    (fun i => amd_cards_one_page self
                (Py.slice amd_paths (10 * i) (10 * (i + 1)))
                (if negb (Nat.eqb i (amd_num_pages (length amd_paths) - 1))
                 then None else Some character_token_path))).
  - reflexivity.
  - intros res i.
    destruct (negb (Nat.eqb i (amd_num_pages (length amd_paths) - 1)));
      reflexivity.
Qed.

Lemma render_amd_cards (self : LatexFileGenerator) (amd_paths : list string)
  (character_token_path : string) :
  render (amd_cards_markup self amd_paths character_token_path)
  = amd_cards self amd_paths character_token_path.
Proof.
  rewrite amd_cards_by_index. unfold amd_cards_markup.
  rewrite render_flat_map. f_equal. apply map_ext. intros i.
  apply render_amd_cards_one_page.
Qed.

Lemma render_ability_cards_one_page (self : LatexFileGenerator)
  (card_paths : list string) :
  render (ability_cards_one_page_markup self card_paths)
  = ability_cards_one_page self card_paths.
Proof.
  unfold ability_cards_one_page, ability_cards_one_page_markup. cbv zeta.
  rewrite (fold_left_append _
             (fun i => render (ability_card_markup self card_paths i))).
  2:{ intros res i. unfold ability_card_markup, ability_options.
      destruct (negb (Nat.eqb i (length card_paths - 1))
                && negb (Nat.eqb i (cards_per_line self - 1)));
        destruct (Nat.eqb i (cards_per_line self - 1)); same_text. }
  rewrite !render_app, render_flat_map.
  destruct (has_bleed self); same_text.
Qed.

(** [ability_cards] is, page by page, the front page followed by a page
    of as many back-plates. *)
Lemma ability_cards_by_page (self : LatexFileGenerator)
  (card_paths : list string) (ability_card_back : string) :
  ability_cards self card_paths ability_card_back
  = Py.join
      (map (fun cards_in_page =>
              ability_cards_one_page self cards_in_page
              ++ ability_cards_one_page self
                   (repeat ability_card_back (length cards_in_page)))
           (ability_pages self card_paths)).
Proof.
  unfold ability_cards, ability_pages. cbv zeta.
  rewrite map_map.
  rewrite (fold_left_append _
    (fun i =>
       let cards_in_page :=
         Py.slice card_paths (2 * cards_per_line self * i)
                             (2 * cards_per_line self * (i + 1)) in
       ability_cards_one_page self cards_in_page
       ++ ability_cards_one_page self
            (repeat ability_card_back (length cards_in_page)))).
  - reflexivity.
  - intros res i. cbv zeta. unfold Py.range.
    now rewrite map_const_seq, append_assoc.
Qed.

Lemma render_ability_cards (self : LatexFileGenerator)
  (card_paths : list string) (ability_card_back : string) :
  render (ability_cards_markup self card_paths ability_card_back)
  = ability_cards self card_paths ability_card_back.
Proof.
  rewrite ability_cards_by_page. unfold ability_cards_markup.
  rewrite render_flat_map. f_equal. apply map_ext. intros p.
  now rewrite render_app, !render_ability_cards_one_page.
Qed.

Lemma render_character_mat (self : LatexFileGenerator)
  (mat_front_path mat_back_path characer_mini_path : string) :
  render (character_mat_markup self mat_front_path mat_back_path
            characer_mini_path)
  = character_mat self mat_front_path mat_back_path characer_mini_path.
Proof.
  unfold character_mat, character_mat_markup, mat_options, mini_options.
  cbv zeta. same_text.
Qed.

Lemma render_character_sheet (self : LatexFileGenerator)
  (path_to_sheet : string) :
  render (character_sheet_markup self path_to_sheet)
  = character_sheet self path_to_sheet.
Proof.
  unfold character_sheet, character_sheet_markup. cbv zeta.
  rewrite render_app. f_equal;
    unfold character_sheet_page_markup, sheet_options; same_text.
Qed.

(** The whole document: the markup renders to the very string that
    [generate_latex_file] writes. *)
Lemma render_document (fs : FileSystem) (self : LatexFileGenerator) :
  render (document_markup fs self) = latex_code fs self.
Proof.
  unfold document_markup, latex_code. cbv zeta.
  rewrite !render_app.
  unfold ability_section, amd_section, mat_section, sheet_section.
  rewrite render_ability_cards, render_amd_cards, render_character_mat,
    render_character_sheet.
  unfold render at 1 2. cbn [map Py.join fold_right nth].
  rewrite !append_nil_r, ?append_assoc. reflexivity.
Qed.

(** ** Cutting a list into consecutive slices *)

Section Slices.

Context {A : Type}.
Variable c : nat.
Variable l : list A.

Lemma firstn_add_skipn (n m : nat) (xs : list A) :
  firstn (n + m) xs = (firstn n xs ++ firstn m (skipn n xs))%list.
Proof.
  revert xs. induction n as [|n IH]; intros xs; [reflexivity|].
  destruct xs as [|x xs]; simpl.
  - now rewrite firstn_nil.
  - now rewrite IH.
Qed.

(** The first [k] slices of width [c] cover the first [c * k] elements,
    in order. *)
Lemma concat_slices (k : nat) :
  concat (map (fun i => Py.slice l (c * i) (c * (i + 1))) (Py.range k))
  = firstn (c * k) l.
Proof.
  unfold Py.range. induction k as [|k IH].
  - now rewrite Nat.mul_0_r.
  - rewrite seq_S, map_app, concat_app, IH. simpl.
    rewrite app_nil_r. unfold Py.slice.
    replace (c * (k + 1) - c * k) with c by nia.
    replace (c * S k) with (c * k + c) by nia.
    now rewrite firstn_add_skipn.
Qed.

Lemma length_slice (i : nat) :
  length (Py.slice l (c * i) (c * (i + 1))) = Nat.min c (length l - c * i).
Proof.
  unfold Py.slice. rewrite length_firstn, length_skipn.
  replace (c * (i + 1) - c * i) with c by nia. reflexivity.
Qed.

End Slices.

Lemma cards_per_line_cases (self : LatexFileGenerator) :
  cards_per_line self = (if negb (is_a4 self) && has_bleed self then 3 else 4).
Proof. reflexivity. Qed.

Lemma cards_per_line_pos (self : LatexFileGenerator) :
  0 < 2 * cards_per_line self.
Proof. rewrite cards_per_line_cases. destruct (negb _ && _); lia. Qed.

(** *** Ability-card pages *)

Lemma length_ability_pages (self : LatexFileGenerator) (card_paths : list string) :
  length (ability_pages self card_paths)
  = length card_paths / (2 * cards_per_line self) + 1.
Proof. unfold ability_pages, Py.range. now rewrite length_map, length_seq. Qed.

Lemma concat_ability_pages (self : LatexFileGenerator) (card_paths : list string) :
  concat (ability_pages self card_paths) = card_paths.
Proof.
  unfold ability_pages. cbv zeta. rewrite concat_slices.
  apply firstn_all2.
  pose proof (cards_per_line_pos self) as Hc.
  pose proof (Nat.mul_succ_div_gt (length card_paths)
                (2 * cards_per_line self) ltac:(lia)).
  lia.
Qed.

Lemma ability_pages_capacity (self : LatexFileGenerator)
  (card_paths : list string) :
  Forall (fun page => length page <= 2 * cards_per_line self)
         (ability_pages self card_paths).
Proof.
  unfold ability_pages. cbv zeta. apply Forall_forall. intros page Hin.
  apply in_map_iff in Hin. destruct Hin as [i [<- _]].
  rewrite length_slice. lia.
Qed.

(** *** AMD-category pages *)

Lemma amd_num_pages_ceil (n : nat) :
  10 * (amd_num_pages n - 1) < n <= 10 * amd_num_pages n
  \/ (n = 0 /\ amd_num_pages n = 0).
Proof.
  unfold amd_num_pages. cbv zeta.
  pose proof (Nat.div_mod_eq (n + 10 - 1) 10) as E.
  pose proof (Nat.mod_upper_bound (n + 10 - 1) 10 ltac:(lia)) as B.
  destruct n as [|n]; [right; split; reflexivity|left; lia].
Qed.

Lemma length_amd_pages (amd_paths : list string) :
  length (amd_pages amd_paths) = amd_num_pages (length amd_paths).
Proof. unfold amd_pages, Py.range. now rewrite length_map, length_seq. Qed.

Lemma concat_amd_pages (amd_paths : list string) :
  concat (amd_pages amd_paths) = amd_paths.
Proof.
  unfold amd_pages. cbv zeta. rewrite concat_slices.
  apply firstn_all2.
  destruct (amd_num_pages_ceil (length amd_paths)); lia.
Qed.

(** Every AMD-category page holds between one and ten cards. *)
Lemma amd_pages_capacity (amd_paths : list string) :
  Forall (fun page => 1 <= length page <= 10) (amd_pages amd_paths).
Proof.
  unfold amd_pages. cbv zeta. apply Forall_forall. intros page Hin.
  apply in_map_iff in Hin. destruct Hin as [i [<- Hi]].
  apply in_seq in Hi. rewrite length_slice.
  destruct (amd_num_pages_ceil (length amd_paths)); lia.
Qed.

(** ** Which images a page includes *)

Lemma map_nth_seq {A : Type} (d : A) (l : list A) :
  map (fun i => nth i l d) (seq 0 (length l)) = l.
Proof.
  induction l as [|a l IH]; [reflexivity|].
  simpl. rewrite <- seq_shift, map_map. simpl. now rewrite IH.
Qed.

Lemma flat_map_single {A B : Type} (g : A -> B) (l : list A) :
  flat_map (fun x => [g x]) l = map g l.
Proof. induction l as [|x l IH]; simpl; [reflexivity | now rewrite IH]. Qed.

Lemma filter_flat_map {A B : Type} (f : B -> bool) (g : A -> list B)
  (l : list A) :
  filter f (flat_map g l) = flat_map (fun x => filter f (g x)) l.
Proof.
  induction l as [|x l IH]; simpl; [reflexivity|].
  now rewrite filter_app, IH.
Qed.

Lemma filter_map_all {A B : Type} (f : B -> bool) (g : A -> B) (l : list A) :
  (forall x, f (g x) = true) -> filter f (map g l) = map g l.
Proof.
  intros H. induction l as [|x l IH]; simpl; [reflexivity|].
  now rewrite H, IH.
Qed.

Lemma filter_map_none {A B : Type} (f : B -> bool) (g : A -> B) (l : list A) :
  (forall x, f (g x) = false) -> filter f (map g l) = [].
Proof.
  intros H. induction l as [|x l IH]; simpl; [reflexivity|].
  now rewrite H, IH.
Qed.

Section Selecting.

(** A selection of image inclusions: it keeps no template text. *)
Variable f : markup -> bool.
Hypothesis f_raw : forall text, f (Raw text) = false.

Variable self : LatexFileGenerator.

Lemma select_ability_page (card_paths : list string) :
  filter f (ability_cards_one_page_markup self card_paths)
  = filter f (map (Graphics false ability_options) card_paths).
Proof.
  unfold ability_cards_one_page_markup, page_end.
  rewrite !filter_app, filter_flat_map. cbn [filter].
  rewrite !f_raw, app_nil_r. cbn [app].
  rewrite (flat_map_ext _
    (fun i => filter f [Graphics false ability_options (nth i card_paths "")])).
  - rewrite <- filter_flat_map, flat_map_single. unfold Py.range.
    now rewrite <- (map_map (fun i => nth i card_paths "")
                            (Graphics false ability_options)), map_nth_seq.
  - intros i. unfold ability_card_markup, hspace, row_break.
    destruct (negb _ && negb _); destruct (Nat.eqb i _); cbn [filter app];
      rewrite ?f_raw; reflexivity.
Qed.

Lemma select_amd_page (amd_paths : list string) (token_path : option string) :
  filter f (amd_cards_one_page_markup self amd_paths token_path)
  = (filter f (map (Graphics false (amd_options self)) amd_paths)
     ++ match token_path with
        | Some token_path => filter f (token_pairs token_path)
        | None => []
        end)%list.
Proof.
  unfold amd_cards_one_page_markup, page_end.
  rewrite !filter_app, filter_flat_map. cbn [filter].
  rewrite !f_raw, app_nil_r. cbn [app]. f_equal.
  - rewrite (flat_map_ext _
      (fun i => filter f [Graphics false (amd_options self) (nth i amd_paths "")])).
    + rewrite <- filter_flat_map, flat_map_single. unfold Py.range.
      now rewrite <- (map_map (fun i => nth i amd_paths "")
                              (Graphics false (amd_options self))), map_nth_seq.
    + intros i. unfold amd_card_markup, hspace, row_break.
      destruct (negb _ && negb _); destruct (Nat.eqb i 4); cbn [filter app];
        rewrite ?f_raw; reflexivity.
  - destruct token_path as [token_path|]; [|reflexivity].
    cbn [filter]. rewrite f_raw, filter_flat_map.
    rewrite (flat_map_ext _
      (fun _ => filter f [Graphics false token_options token_path;
                          Graphics true token_options token_path])).
    + unfold token_pairs, Py.range.
      change (seq 0 5) with [0; 1; 2; 3; 4].
      cbn [flat_map repeat concat]. now rewrite !filter_app.
    + intros i. unfold token_pair_markup, hspace.
      destruct (negb (Nat.eqb i 9)); cbn [filter app];
        rewrite ?f_raw; reflexivity.
Qed.

Lemma select_ability_cards (card_paths : list string) (back : string) :
  filter f (ability_cards_markup self card_paths back)
  = flat_map (fun page =>
      (filter f (map (Graphics false ability_options) page)
       ++ filter f (map (Graphics false ability_options)
                        (repeat back (length page))))%list)
      (ability_pages self card_paths).
Proof.
  unfold ability_cards_markup. rewrite filter_flat_map.
  apply flat_map_ext. intros page.
  now rewrite filter_app, !select_ability_page.
Qed.

End Selecting.

Lemma graphics_ability_page (self : LatexFileGenerator) (card_paths : list string) :
  graphics (ability_cards_one_page_markup self card_paths)
  = map (Graphics false ability_options) card_paths.
Proof.
  unfold graphics. rewrite select_ability_page by reflexivity.
  now apply filter_map_all.
Qed.

Lemma amd_options_not_token (self : LatexFileGenerator) :
  String.eqb (amd_options self) token_options = false
  /\ String.eqb token_options (amd_options self) = false.
Proof. unfold amd_options. destruct (rotate_amd_cards self); split; reflexivity. Qed.

(** The card images of one AMD-category page are its cards, in order,
    whether or not the page carries tokens. *)
Lemma amd_card_images_page (self : LatexFileGenerator) (amd_paths : list string)
  (token_path : option string) :
  amd_card_images self (amd_cards_one_page_markup self amd_paths token_path)
  = map (Graphics false (amd_options self)) amd_paths.
Proof.
  unfold amd_card_images. rewrite select_amd_page by reflexivity.
  rewrite filter_map_all by (intros x; apply String.eqb_refl).
  destruct token_path as [t|]; [|now rewrite app_nil_r].
  unfold token_pairs. cbn [repeat concat app filter has_options].
  destruct (amd_options_not_token self) as [-> _]. now rewrite app_nil_r.
Qed.

Lemma token_images_page (self : LatexFileGenerator) (amd_paths : list string)
  (token_path : option string) :
  token_images (amd_cards_one_page_markup self amd_paths token_path)
  = match token_path with
    | Some token_path => token_pairs token_path
    | None => []
    end.
Proof.
  unfold token_images. rewrite select_amd_page by reflexivity.
  rewrite filter_map_none.
  2:{ intros x. apply (amd_options_not_token self). }
  destruct token_path as [t|]; [|reflexivity].
  unfold token_pairs. cbn [repeat concat app filter has_options].
  now rewrite String.eqb_refl.
Qed.

(** ** The order of the sorted listings *)

Lemma path_le_trans : Transitive path_le.
Proof.
  intros a b c. unfold path_le, String.leb.
  destruct (String.compare a b) eqn:Hab; try discriminate;
    destruct (String.compare b c) eqn:Hbc; try discriminate; intros _ _.
  - apply String_as_OT.cmp_eq in Hab, Hbc. subst.
    pose proof (proj2 (String_as_OT.cmp_eq c c) eq_refl) as Hcc.
    unfold String_as_OT.cmp in Hcc. now rewrite Hcc.
  - apply String_as_OT.cmp_eq in Hab. subst. now rewrite Hbc.
  - apply String_as_OT.cmp_eq in Hbc. subst. now rewrite Hab.
  - apply String_as_OT.cmp_lt in Hab, Hbc.
    pose proof (String_as_OT.lt_trans _ _ _ Hab Hbc) as Hac.
    apply String_as_OT.cmp_lt in Hac. unfold String_as_OT.cmp in Hac.
    now rewrite Hac.
Qed.

Lemma strongly_sorted_sort (l : list string) :
  StronglySorted path_le (PathSort.sort l).
Proof. apply PathSort.StronglySorted_sort. exact path_le_trans. Qed.

(** Two sorted arrangements of the same paths are the same list. *)
Lemma sorted_permutation_unique (l1 l2 : list string) :
  StronglySorted path_le l1 -> StronglySorted path_le l2 ->
  Permutation l1 l2 -> l1 = l2.
Proof.
  revert l2. induction l1 as [|a l1 IH]; intros l2 H1 H2 HP.
  - now apply Permutation_nil in HP.
  - destruct l2 as [|b l2].
    + apply Permutation_sym, Permutation_nil in HP. discriminate.
    + apply StronglySorted_inv in H1. destruct H1 as [H1 Ha].
      apply StronglySorted_inv in H2. destruct H2 as [H2 Hb].
      assert (a = b) as ->.
      { assert (In a (b :: l2)) as Ia
          by (eapply Permutation_in; [exact HP | now left]).
        assert (In b (a :: l1)) as Ib
          by (eapply Permutation_in;
              [apply Permutation_sym; exact HP | now left]).
        destruct Ia as [Ia|Ia]; [now symmetry|].
        destruct Ib as [Ib|Ib]; [exact Ib|].
        rewrite Forall_forall in Ha, Hb.
        apply String.leb_antisym; [apply Ha, Ib | apply Hb, Ia]. }
      f_equal. apply IH; try assumption.
      now apply Permutation_cons_inv in HP.
Qed.

Lemma sort_permutation (l l' : list string) :
  Permutation l l' -> PathSort.sort l = PathSort.sort l'.
Proof.
  intros HP. apply sorted_permutation_unique; try apply strongly_sorted_sort.
  eapply Permutation_trans; [apply Permutation_sym, PathSort.Permuted_sort|].
  eapply Permutation_trans; [exact HP | apply PathSort.Permuted_sort].
Qed.

Lemma sorted_images_spec (fs : FileSystem) (dir : string) :
  StronglySorted path_le (sorted_images fs dir)
  /\ Permutation (listing fs dir) (sorted_images fs dir).
Proof.
  split; [apply strongly_sorted_sort | apply PathSort.Permuted_sort].
Qed.

Lemma length_sorted_images (fs : FileSystem) (dir : string) :
  length (sorted_images fs dir) = length (listing fs dir).
Proof.
  symmetry. apply Permutation_length. apply (sorted_images_spec fs dir).
Qed.

(** Two directories that agree on which paths exist and list the same
    files, in any order, give the same text. *)
Lemma latex_code_listing_order (fs fs' : FileSystem) (self : LatexFileGenerator) :
  (forall p, fs_exists fs p = fs_exists fs' p) ->
  (forall dir, Permutation (listing fs dir) (listing fs' dir)) ->
  latex_code fs self = latex_code fs' self.
Proof.
  intros He Hl.
  assert (forall dir, sorted_images fs dir = sorted_images fs' dir) as Hs
    by (intros dir; apply sort_permutation, Hl).
  assert (forall root name, jpg_or_png fs root name = jpg_or_png fs' root name)
    as Hj by (intros root name; unfold jpg_or_png; now rewrite He).
  unfold latex_code, all_amd_cards. cbv zeta.
  rewrite !Hs. cbn [map]. rewrite !Hj. reflexivity.
Qed.

(** ** The AMD-category section *)

Lemma map_const {A B : Type} (x : B) (l : list A) :
  map (fun _ => x) l = repeat x (length l).
Proof. induction l as [|a l IH]; simpl; [reflexivity | now rewrite IH]. Qed.

Lemma flat_map_map_concat {A B C : Type} (g : B -> C) (h : A -> list B)
  (l : list A) :
  flat_map (fun i => map g (h i)) l = map g (concat (map h l)).
Proof.
  induction l as [|x l IH]; simpl; [reflexivity|].
  now rewrite map_app, IH.
Qed.

(** The flat sequence, spelled out: fronts of both categories, then one
    back-plate per front. *)
Lemma all_amd_cards_flat (fs : FileSystem) (self : LatexFileGenerator) :
  let root := path_to_root_dir self in
  let amd_paths := sorted_images fs (joinpath root "AMD") in
  let non_amd_paths := sorted_images fs (joinpath root "NON_AMD") in
  all_amd_cards fs self
  = (map sanitize_path amd_paths ++ map sanitize_path non_amd_paths
     ++ repeat (asset_path fs self "amd_back") (length amd_paths)
     ++ repeat (asset_path fs self "non_amd_back") (length non_amd_paths))%list.
Proof.
  cbv zeta. unfold all_amd_cards, asset_path. cbv zeta.
  rewrite !map_app, !map_const, !map_repeat, <- !app_assoc. reflexivity.
Qed.

Lemma length_all_amd_cards (fs : FileSystem) (self : LatexFileGenerator) :
  length (all_amd_cards fs self)
  = 2 * (length (listing fs (joinpath (path_to_root_dir self) "AMD"))
         + length (listing fs (joinpath (path_to_root_dir self) "NON_AMD"))).
Proof.
  rewrite all_amd_cards_flat. cbv zeta.
  rewrite !length_app, !length_map, !repeat_length, !length_sorted_images. lia.
Qed.

(** The card images of the whole section are the paginated sequence
    itself: every card once, in order. *)
Lemma amd_card_images_section (self : LatexFileGenerator)
  (amd_paths : list string) (character_token_path : string) :
  amd_card_images self (amd_cards_markup self amd_paths character_token_path)
  = map (Graphics false (amd_options self)) amd_paths.
Proof.
  unfold amd_card_images, amd_cards_markup. rewrite filter_flat_map.
  rewrite (flat_map_ext _
    (fun i => map (Graphics false (amd_options self))
                  (Py.slice amd_paths (10 * i) (10 * (i + 1))))).
  2:{ intros i. apply amd_card_images_page. }
  rewrite flat_map_map_concat.
  change (map (fun i => Py.slice amd_paths (10 * i) (10 * (i + 1)))
              (Py.range (amd_num_pages (length amd_paths))))
    with (amd_pages amd_paths).
  now rewrite concat_amd_pages.
Qed.

(** With at least one page, [amd_cards] is every page but the last
    without the token argument, then the last page with it. *)
Lemma amd_cards_last_page (self : LatexFileGenerator) (amd_paths : list string)
  (character_token_path : string) :
  amd_pages amd_paths <> [] ->
  amd_cards self amd_paths character_token_path
  = Py.join (map (fun page => amd_cards_one_page self page None)
                 (removelast (amd_pages amd_paths)))
    ++ amd_cards_one_page self (last (amd_pages amd_paths) [])
         (Some character_token_path).
Proof.
  rewrite amd_cards_by_index. unfold amd_pages. cbv zeta.
  destruct (amd_num_pages (length amd_paths)) as [|k]; [now intros []|].
  intros _. unfold Py.range. rewrite seq_S, !map_app. cbn [map Nat.add].
  rewrite removelast_last, last_last, join_app.
  replace (S k - 1) with k by lia. f_equal.
  - f_equal. rewrite map_map. apply map_ext_in. intros i Hi.
    apply in_seq in Hi.
    replace (Nat.eqb i k) with false by (symmetry; apply Nat.eqb_neq; lia).
    reflexivity.
  - rewrite Nat.eqb_refl. cbn [Py.join fold_right negb].
    now rewrite append_nil_r.
Qed.

(** The page of index [i] is the next ten cards from position [10 * i]
    on, or what is left of them. *)
Lemma nth_amd_pages (amd_paths : list string) (i : nat) :
  i < length (amd_pages amd_paths) ->
  nth i (amd_pages amd_paths) [] = firstn 10 (skipn (10 * i) amd_paths).
Proof.
  rewrite length_amd_pages. intros Hi. unfold amd_pages. cbv zeta.
  set (page := fun i => Py.slice amd_paths (10 * i) (10 * (i + 1))).
  rewrite (nth_indep _ [] (page 0))
    by (unfold Py.range; now rewrite length_map, length_seq).
  rewrite map_nth. unfold Py.range. rewrite seq_nth by exact Hi.
  unfold page, Py.slice. f_equal. lia.
Qed.

Lemma amd_pages_nil_iff (amd_paths : list string) :
  amd_pages amd_paths = [] <-> amd_paths = [].
Proof.
  split; intros H.
  - rewrite <- (concat_amd_pages amd_paths), H. reflexivity.
  - subst. reflexivity.
Qed.

(** ** Ability cards: pagination and back pages *)

Lemma join_front_back {A : Type} (one : A -> string) (back_of : A -> A)
  (pages : list A) :
  Py.join (map (fun front => one front ++ one (back_of front)) pages)
  = Py.join (map one (flat_map (fun front => [front; back_of front]) pages)).
Proof.
  unfold Py.join. induction pages as [|p pages IH]; [reflexivity|].
  cbn [map flat_map app fold_right]. now rewrite IH, append_assoc.
Qed.

(** C5: for every list of ability-card images (the empty one included),
    the ability-card section is the sequence front page, back page, front
    page, back page, ...: each front page is directly followed by a page
    of the shared back-plate repeated as many times as the front page
    holds images, so there are as many back pages as front pages. *)
Theorem ability_front_pages_paired_with_back_pages
  (self : LatexFileGenerator) (card_paths : list string) (back : string) :
  let pages := ability_pages self card_paths in
  let back_page (front : list string) := repeat back (length front) in
  ability_cards self card_paths back
  = Py.join (map (ability_cards_one_page self)
               (flat_map (fun front => [front; back_page front]) pages))
  /\ concat pages = card_paths
  /\ (forall page,
        render (ability_cards_one_page_markup self page)
        = ability_cards_one_page self page
        /\ graphics (ability_cards_one_page_markup self page)
           = map (Graphics false ability_options) page)
  /\ (forall front,
        graphics (ability_cards_one_page_markup self (back_page front))
        = repeat (Graphics false ability_options back) (length front)
        /\ length (graphics (ability_cards_one_page_markup self (back_page front)))
           = length (graphics (ability_cards_one_page_markup self front)))
  /\ length (map back_page pages) = length pages.
Proof.
  cbv zeta. repeat split.
  - rewrite ability_cards_by_page. apply join_front_back.
  - apply concat_ability_pages.
  - apply render_ability_cards_one_page.
  - apply graphics_ability_page.
  - now rewrite graphics_ability_page, map_repeat.
  - now rewrite !graphics_ability_page, !length_map, repeat_length.
  - apply length_map.
Qed.

(** C1, evaluated where it fails: eight cards on A4 fill one page of
    capacity eight exactly, the ceiling of 8/8 is one, and yet the loop
    runs [8 // 8 + 1 = 2] times: a second front page with no image is
    emitted, followed by its equally empty back page.  With no card at
    all the section is still one empty front page and one empty back
    page. *)
Theorem ability_cards_exact_multiple_adds_empty_page :
  2 * cards_per_line sample_generator = 8
  /\ (length eight_cards + 8 - 1) / 8 = 1
  /\ ability_pages sample_generator eight_cards = [eight_cards; []]
  /\ ability_cards sample_generator eight_cards "back.jpg"
     = ability_cards_one_page sample_generator eight_cards
       ++ ability_cards_one_page sample_generator (repeat "back.jpg" 8)
       ++ ability_cards_one_page sample_generator []
       ++ ability_cards_one_page sample_generator []
  /\ graphics (ability_cards_one_page_markup sample_generator []) = []
  /\ ability_pages sample_generator [] = [[]].
Proof. repeat split; vm_compute; reflexivity. Qed.

(** The page count of [ability_cards] in general: one more than the
    quotient, whatever the remainder. *)
Lemma ability_pages_count (self : LatexFileGenerator) (card_paths : list string) :
  let capacity := 2 * cards_per_line self in
  length (ability_pages self card_paths) = length card_paths / capacity + 1
  /\ capacity = (if negb (is_a4 self) && has_bleed self then 6 else 8)
  /\ last (ability_pages self card_paths) []
     = skipn (capacity * (length card_paths / capacity)) card_paths.
Proof.
  cbv zeta. split; [apply length_ability_pages|]. split.
  - rewrite cards_per_line_cases. now destruct (negb _ && _).
  - unfold ability_pages. cbv zeta. unfold Py.range.
    rewrite Nat.add_1_r, seq_S, map_app. cbn [map Nat.add].
    rewrite last_last. unfold Py.slice.
    apply firstn_all2. rewrite length_skipn.
    pose proof (cards_per_line_pos self) as Hc.
    pose proof (Nat.mul_succ_div_gt (length card_paths)
                  (2 * cards_per_line self) ltac:(lia)).
    nia.
Qed.

(** ** AMD-category cards: the paginated sequence and the tokens *)

(** C3: the AMD fronts and the NON_AMD fronts (AMD first) and one
    back-plate per front, each of its own category, make one flat
    sequence of [2 * (N + M)] images; it is cut into pages of one to ten
    cards; the pages put end to end are the sequence again, and the card
    images of the emitted section are exactly its members, each once and
    in order.  A category with no image adds nothing. *)
Theorem amd_emission_keeps_every_image (fs : FileSystem)
  (self : LatexFileGenerator) :
  let root := path_to_root_dir self in
  let amd := sorted_images fs (joinpath root "AMD") in
  let non_amd := sorted_images fs (joinpath root "NON_AMD") in
  let N := length (listing fs (joinpath root "AMD")) in
  let M := length (listing fs (joinpath root "NON_AMD")) in
  let flat := all_amd_cards fs self in
  flat = (map sanitize_path amd ++ map sanitize_path non_amd
          ++ repeat (asset_path fs self "amd_back") N
          ++ repeat (asset_path fs self "non_amd_back") M)%list
  /\ length amd = N /\ length non_amd = M
  /\ length flat = 2 * (N + M)
  /\ concat (amd_pages flat) = flat
  /\ Forall (fun page => 1 <= length page <= 10) (amd_pages flat)
  /\ (forall i, i < length (amd_pages flat) ->
        nth i (amd_pages flat) [] = firstn 10 (skipn (10 * i) flat))
  /\ length (amd_pages flat) = (2 * (N + M) + 10 - 1) / 10
  /\ render (amd_section fs self)
     = amd_cards self flat (asset_path fs self "character_token")
  /\ amd_card_images self (amd_section fs self)
     = map (Graphics false (amd_options self)) flat
  /\ length (amd_card_images self (amd_section fs self)) = 2 * (N + M).
Proof.
  cbv zeta.
  pose proof (length_sorted_images fs (joinpath (path_to_root_dir self) "AMD"))
    as HN.
  pose proof (length_sorted_images fs
                (joinpath (path_to_root_dir self) "NON_AMD")) as HM.
  repeat split.
  - rewrite all_amd_cards_flat. cbv zeta. now rewrite HN, HM.
  - exact HN.
  - exact HM.
  - apply length_all_amd_cards.
  - apply concat_amd_pages.
  - apply amd_pages_capacity.
  - apply nth_amd_pages.
  - rewrite length_amd_pages, length_all_amd_cards. reflexivity.
  - apply render_amd_cards.
  - apply amd_card_images_section.
  - unfold amd_section. rewrite amd_card_images_section, length_map.
    apply length_all_amd_cards.
Qed.

(** C4: when the AMD-category sequence yields at least one page, every
    page but the last is emitted without tokens and holds no token image;
    the last page, full or not, is emitted with the token path and holds
    exactly ten token images: five times the token followed by its
    mirrored copy. *)
Theorem tokens_only_on_last_amd_page (self : LatexFileGenerator)
  (amd_paths : list string) (character_token_path : string) :
  amd_pages amd_paths <> [] ->
  amd_cards self amd_paths character_token_path
  = Py.join (map (fun page => amd_cards_one_page self page None)
                 (removelast (amd_pages amd_paths)))
    ++ amd_cards_one_page self (last (amd_pages amd_paths) [])
         (Some character_token_path)
  /\ (forall page,
        render (amd_cards_one_page_markup self page None)
        = amd_cards_one_page self page None
        /\ token_images (amd_cards_one_page_markup self page None) = [])
  /\ (forall page,
        render (amd_cards_one_page_markup self page (Some character_token_path))
        = amd_cards_one_page self page (Some character_token_path)
        /\ token_images
             (amd_cards_one_page_markup self page (Some character_token_path))
           = token_pairs character_token_path)
  /\ token_pairs character_token_path
     = (let token := Graphics false token_options character_token_path in
        let mirrored := Graphics true token_options character_token_path in
        [token; mirrored; token; mirrored; token; mirrored; token; mirrored;
         token; mirrored])
  /\ length (token_pairs character_token_path) = 10.
Proof.
  intros Hpages. split; [now apply amd_cards_last_page|].
  repeat split.
  - apply render_amd_cards_one_page.
  - apply token_images_page.
  - apply render_amd_cards_one_page.
  - apply token_images_page.
Qed.

Lemma tokens_only_on_last_amd_page_witness :
  amd_pages ["a.jpg"; "back.jpg"] <> []
  /\ amd_cards sample_generator ["a.jpg"; "back.jpg"] "token.jpg"
     = amd_cards_one_page sample_generator ["a.jpg"; "back.jpg"]
         (Some "token.jpg").
Proof.
  assert (amd_pages ["a.jpg"; "back.jpg"] <> []) as H
    by (vm_compute; discriminate).
  split; [exact H|].
  exact (proj1 (tokens_only_on_last_amd_page sample_generator
                  ["a.jpg"; "back.jpg"] "token.jpg" H)).
Defined.

(** ** Counting images over the whole document *)

Lemma flat_map_nil {A B : Type} (l : list A) :
  flat_map (fun _ => @nil B) l = [].
Proof. induction l as [|x l IH]; simpl; [reflexivity | exact IH]. Qed.

Section SelectingOthers.

(** A selection that keeps neither template text nor any image included
    under the options of the ability cards, of the AMD-category cards or
    of the tokens. *)
Variable f : markup -> bool.
Variable self : LatexFileGenerator.
Hypothesis f_raw : forall text, f (Raw text) = false.

Lemma select_none_ability_cards (card_paths : list string) (back : string) :
  (forall p, f (Graphics false ability_options p) = false) ->
  filter f (ability_cards_markup self card_paths back) = [].
Proof.
  intros Hf. rewrite select_ability_cards by exact f_raw.
  rewrite (flat_map_ext _ (fun _ => [])); [apply flat_map_nil|].
  intros page. now rewrite !filter_map_none.
Qed.

Lemma select_none_amd_cards (amd_paths : list string) (token : string) :
  (forall p, f (Graphics false (amd_options self) p) = false) ->
  (forall b p, f (Graphics b token_options p) = false) ->
  filter f (amd_cards_markup self amd_paths token) = [].
Proof.
  intros Hcard Htoken. unfold amd_cards_markup. rewrite filter_flat_map.
  rewrite (flat_map_ext _ (fun _ => [])); [apply flat_map_nil|].
  intros i. rewrite select_amd_page by exact f_raw.
  rewrite filter_map_none by exact Hcard.
  destruct (negb _); [reflexivity|].
  unfold token_pairs. cbn [repeat concat app filter].
  now rewrite !Htoken.
Qed.

End SelectingOthers.

(** Outside the AMD-category section no image is included under the
    token options. *)
Lemma token_images_outside_amd (fs : FileSystem) (self : LatexFileGenerator) :
  token_images (document_markup fs self) = token_images (amd_section fs self).
Proof.
  unfold token_images, document_markup.
  rewrite !filter_app.
  unfold ability_section.
  rewrite select_none_ability_cards by reflexivity.
  replace (filter (has_options token_options) (mat_section fs self))
    with (@nil markup) by reflexivity.
  replace (filter (has_options token_options) (sheet_section fs self))
    with (@nil markup) by reflexivity.
  cbn [filter has_options app]. now rewrite !app_nil_r.
Qed.

(** C9: when the AMD and NON_AMD listings are both empty, the paginated
    sequence is empty, no AMD-category page is emitted (the section is the
    empty text), and no token image stands anywhere in the document,
    although the token path has been resolved. *)
Theorem no_amd_card_no_token (fs : FileSystem) (self : LatexFileGenerator) :
  let root := path_to_root_dir self in
  length (listing fs (joinpath root "AMD"))
  + length (listing fs (joinpath root "NON_AMD")) = 0 ->
  all_amd_cards fs self = []
  /\ amd_pages (all_amd_cards fs self) = []
  /\ amd_cards self (all_amd_cards fs self)
       (asset_path fs self "character_token") = ""
  /\ render (document_markup fs self) = latex_code fs self
  /\ token_images (document_markup fs self) = [].
Proof.
  cbv zeta. intros H0.
  assert (all_amd_cards fs self = []) as Hflat.
  { apply length_zero_iff_nil. rewrite length_all_amd_cards. lia. }
  split; [exact Hflat|]. rewrite token_images_outside_amd.
  unfold amd_section. rewrite Hflat. repeat split.
  apply render_document.
Qed.

Lemma no_amd_card_no_token_witness :
  length (listing empty_fs (joinpath (path_to_root_dir sample_generator) "AMD"))
  + length (listing empty_fs
              (joinpath (path_to_root_dir sample_generator) "NON_AMD")) = 0
  /\ token_images (document_markup empty_fs sample_generator) = [].
Proof.
  split; [reflexivity|].
  exact (proj2 (proj2 (proj2 (proj2
           (no_amd_card_no_token empty_fs sample_generator eq_refl))))).
Defined.

(** The resolved mat front and mat back are different files. *)
Lemma mat_front_not_mat_back (fs : FileSystem) (self : LatexFileGenerator) :
  asset_path fs self "character_mat" <> asset_path fs self "character_mat_back".
Proof.
  unfold asset_path, jpg_or_png, with_suffix, joinpath. cbv zeta.
  generalize (dir_prefix (path_to_root_dir self)). intros root.
  destruct (negb (fs_exists fs _)); destruct (negb (fs_exists fs _));
    rewrite !append_assoc, !sanitize_path_append;
    intros H; apply append_inv_head in H; vm_compute in H; discriminate H.
Qed.

Lemma markup_eqb_other_options (b b' : bool) (o o' p p' : string) :
  String.eqb o o' = false ->
  markup_eqb (Graphics b o p) (Graphics b' o' p') = false.
Proof.
  intros H. cbn [markup_eqb]. rewrite H.
  now rewrite andb_false_r.
Qed.

(** An image included under options that belong to the mat, the mini or
    the sheet occurs in those two sections only. *)
Lemma occurrences_document (fs : FileSystem) (self : LatexFileGenerator)
  (b : bool) (o p : string) :
  String.eqb o ability_options = false ->
  String.eqb o (amd_options self) = false ->
  String.eqb o token_options = false ->
  occurrences (Graphics b o p) (document_markup fs self)
  = occurrences (Graphics b o p) (mat_section fs self)
    + occurrences (Graphics b o p) (sheet_section fs self).
Proof.
  intros Hab Hamd Htok. unfold occurrences, document_markup.
  rewrite !filter_app. unfold ability_section, amd_section.
  rewrite select_none_ability_cards, select_none_amd_cards;
    try reflexivity;
    try (intros; now apply markup_eqb_other_options).
  cbn [filter markup_eqb app]. now rewrite app_nil_r, length_app.
Qed.

Lemma occurrences_character_mat (self : LatexFileGenerator)
  (mat_front mat_back mini : string) :
  mat_front <> mat_back ->
  occurrences (Graphics false mat_options mat_front)
    (character_mat_markup self mat_front mat_back mini) = 1
  /\ occurrences (Graphics false mat_options mat_back)
       (character_mat_markup self mat_front mat_back mini) = 1
  /\ occurrences (Graphics false mini_options mini)
       (character_mat_markup self mat_front mat_back mini) = 1
  /\ occurrences (Graphics true mini_options mini)
       (character_mat_markup self mat_front mat_back mini) = 1.
Proof.
  intros Hneq.
  assert (String.eqb mat_front mat_back = false) as E1
    by now apply String.eqb_neq.
  assert (String.eqb mat_back mat_front = false) as E2
    by (apply String.eqb_neq; congruence).
  unfold occurrences, character_mat_markup.
  repeat split;
    cbn [filter markup_eqb Bool.eqb andb];
    rewrite ?String.eqb_refl, ?E1, ?E2;
    change (String.eqb mat_options mini_options) with false;
    change (String.eqb mini_options mat_options) with false;
    cbn [andb length]; reflexivity.
Qed.

Lemma occurrences_character_sheet (self : LatexFileGenerator)
  (b : bool) (o p sheet : string) :
  occurrences (Graphics b o p) (character_sheet_markup self sheet)
  = if Bool.eqb b false && String.eqb o sheet_options && String.eqb p sheet
    then 4 else 0.
Proof.
  unfold occurrences, character_sheet_markup, character_sheet_page_markup.
  cbn [app filter markup_eqb].
  destruct (Bool.eqb b false && String.eqb o sheet_options && String.eqb p sheet);
    reflexivity.
Qed.

(** The images of the document that carry the given options, in order,
    when these are not the options of a paginated card or of a token. *)
Lemma select_options_document (fs : FileSystem) (self : LatexFileGenerator)
  (o : string) :
  String.eqb o ability_options = false ->
  String.eqb o (amd_options self) = false ->
  String.eqb o token_options = false ->
  filter (has_options o) (document_markup fs self)
  = (filter (has_options o) (mat_section fs self)
     ++ filter (has_options o) (sheet_section fs self))%list.
Proof.
  intros Hab Hamd Htok. unfold document_markup.
  rewrite !filter_app. unfold ability_section, amd_section.
  rewrite select_none_ability_cards, select_none_amd_cards;
    try reflexivity; try (intros; assumption).
  cbn [filter has_options app]. now rewrite app_nil_r.
Qed.

(** C2, as the code has it: the document holds exactly one mat-front
    image, one mat-back image, one mini in normal placement and one
    mirrored mini, whatever the directory; the character-sheet block,
    which includes the sheet image twice side by side, is emitted twice,
    so the sheet image is included four times. *)
Theorem character_images_counts (fs : FileSystem) (self : LatexFileGenerator) :
  let doc := document_markup fs self in
  let mat_front := asset_path fs self "character_mat" in
  let mat_back := asset_path fs self "character_mat_back" in
  let mini := asset_path fs self "character_mini" in
  let sheet := asset_path fs self "character_sheet" in
  render doc = latex_code fs self
  /\ occurrences (Graphics false mat_options mat_front) doc = 1
  /\ occurrences (Graphics false mat_options mat_back) doc = 1
  /\ filter (has_options mat_options) doc
     = [Graphics false mat_options mat_front;
        Graphics false mat_options mat_back]
  /\ occurrences (Graphics false mini_options mini) doc = 1
  /\ occurrences (Graphics true mini_options mini) doc = 1
  /\ filter (has_options mini_options) doc
     = [Graphics false mini_options mini; Graphics true mini_options mini]
  /\ sheet_section fs self
     = (character_sheet_page_markup sheet
        ++ character_sheet_page_markup sheet)%list
  /\ graphics (character_sheet_page_markup sheet)
     = [Graphics false sheet_options sheet; Graphics false sheet_options sheet]
  /\ occurrences (Graphics false sheet_options sheet) doc = 4
  /\ filter (has_options sheet_options) doc
     = repeat (Graphics false sheet_options sheet) 4.
Proof.
  cbv zeta.
  assert (String.eqb mat_options (amd_options self) = false
          /\ String.eqb mini_options (amd_options self) = false
          /\ String.eqb sheet_options (amd_options self) = false)
    as (Hmat & Hmini & Hsheet)
    by (unfold amd_options; destruct (rotate_amd_cards self);
        repeat split; reflexivity).
  pose proof (occurrences_character_mat self _ _
                (asset_path fs self "character_mini")
                (mat_front_not_mat_back fs self)) as (M1 & M2 & M3 & M4).
  split; [apply render_document|].
  repeat split.
  - rewrite occurrences_document by (exact Hmat || reflexivity).
    unfold mat_section. rewrite M1.
    unfold sheet_section. now rewrite occurrences_character_sheet.
  - rewrite occurrences_document by (exact Hmat || reflexivity).
    unfold mat_section. rewrite M2.
    unfold sheet_section. now rewrite occurrences_character_sheet.
  - rewrite select_options_document by (exact Hmat || reflexivity).
    reflexivity.
  - rewrite occurrences_document by (exact Hmini || reflexivity).
    unfold mat_section. rewrite M3.
    unfold sheet_section. now rewrite occurrences_character_sheet.
  - rewrite occurrences_document by (exact Hmini || reflexivity).
    unfold mat_section. rewrite M4.
    unfold sheet_section. now rewrite occurrences_character_sheet.
  - rewrite select_options_document by (exact Hmini || reflexivity).
    reflexivity.
  - rewrite occurrences_document by (exact Hsheet || reflexivity).
    unfold sheet_section.
    rewrite occurrences_character_sheet, !String.eqb_refl.
    reflexivity.
  - rewrite select_options_document by (exact Hsheet || reflexivity).
    reflexivity.
Qed.

(** C2 as first stated fails on the sheet: in the document of the sample
    folder the sheet image is included four times, not twice. *)
Lemma sheet_image_included_four_times :
  asset_path sample_fs sample_generator "character_sheet"
  = "r/character_sheet.jpg"
  /\ occurrences (Graphics false sheet_options "r/character_sheet.jpg")
       (document_markup sample_fs sample_generator) = 4
  /\ occurrences (Graphics false sheet_options "r/character_sheet.jpg")
       (document_markup sample_fs sample_generator) <> 2.
Proof. repeat split; vm_compute; congruence. Qed.

(** ** The order inside the AMD-category sequence *)

(** C10, as the code has it: the paginated sequence is the sorted AMD
    fronts, the sorted NON_AMD fronts, [N] copies of the AMD back-plate
    and [M] copies of the NON_AMD back-plate, in this order; every front
    stands before every back; the back paired with the front at position
    [i] stands [N + M] positions further, hence next to it exactly when
    [N + M = 1]; and one page can hold fronts and backs together, as the
    single page of the sample folder does. *)
Theorem amd_sequence_fronts_then_backs (fs : FileSystem)
  (self : LatexFileGenerator) :
  let root := path_to_root_dir self in
  let amd := sorted_images fs (joinpath root "AMD") in
  let non_amd := sorted_images fs (joinpath root "NON_AMD") in
  let N := length amd in
  let M := length non_amd in
  let fronts := map sanitize_path (amd ++ non_amd)%list in
  let backs := (repeat (asset_path fs self "amd_back") N
                ++ repeat (asset_path fs self "non_amd_back") M)%list in
  let flat := all_amd_cards fs self in
  flat = (fronts ++ backs)%list
  /\ length fronts = N + M /\ length backs = N + M
  /\ (forall i, i < N + M ->
        nth i flat "" = nth i fronts ""
        /\ nth (own_back_index (N + M) i) flat "" = nth i backs ""
        /\ (adjacent i (own_back_index (N + M) i) <-> N + M = 1))
  /\ (forall i, i < N -> nth i backs "" = asset_path fs self "amd_back")
  /\ (forall i, N <= i < N + M ->
        nth i backs "" = asset_path fs self "non_amd_back")
  /\ amd_pages (all_amd_cards sample_fs sample_generator)
     = [["r/AMD/a.jpg"; "r/AMD/a.png"; "r/AMD/b\ c.jpg";
         "r/amd_back.jpg"; "r/amd_back.jpg"; "r/amd_back.jpg"]].
Proof.
  cbv zeta.
  set (amd := sorted_images fs (joinpath (path_to_root_dir self) "AMD")).
  set (non_amd := sorted_images fs (joinpath (path_to_root_dir self) "NON_AMD")).
  assert (all_amd_cards fs self
          = (map sanitize_path (amd ++ non_amd)
             ++ repeat (asset_path fs self "amd_back") (length amd)
             ++ repeat (asset_path fs self "non_amd_back") (length non_amd))%list)
    as Hflat.
  { rewrite all_amd_cards_flat. cbv zeta. fold amd non_amd.
    now rewrite map_app, <- app_assoc. }
  assert (length (map sanitize_path (amd ++ non_amd))
          = length amd + length non_amd) as Hfronts
    by now rewrite length_map, length_app.
  split; [exact Hflat|]. split; [exact Hfronts|].
  split; [now rewrite length_app, !repeat_length|].
  split; [|split; [|split]].
  - intros i Hi. rewrite Hflat. unfold own_back_index, adjacent.
    split; [|split].
    + apply app_nth1. now rewrite Hfronts.
    + rewrite <- Hfronts at 1. now rewrite app_nth2_plus.
    + lia.
  - intros i Hi. rewrite app_nth1 by now rewrite repeat_length.
    now apply nth_repeat_lt.
  - intros i Hi. rewrite app_nth2 by (rewrite repeat_length; lia).
    rewrite repeat_length. apply nth_repeat_lt. lia.
  - vm_compute. reflexivity.
Qed.

(** C10 as first stated fails with a single AMD card and no NON_AMD card:
    the sequence is the front followed by its own back. *)
Lemma single_amd_card_back_adjacent :
  all_amd_cards one_amd_fs sample_generator = ["r/AMD/a.jpg"; "r/amd_back.jpg"]
  /\ length (sorted_images one_amd_fs "r/AMD")
     + length (sorted_images one_amd_fs "r/NON_AMD") = 1
  /\ adjacent 0 (own_back_index 1 0)
  /\ ~ (forall i, i < 1 -> ~ adjacent i (own_back_index 1 i)).
Proof.
  split; [vm_compute; reflexivity|]. split; [vm_compute; reflexivity|].
  assert (adjacent 0 (own_back_index 1 0)) as H by (left; reflexivity).
  split; [exact H|]. intros Hnever. exact (Hnever 0 (Nat.lt_0_1) H).
Qed.

(** ** The eager directory check *)

Lemma check_files_missing (fs : FileSystem) (root : string) (names : list string) :
  (exists name, In name names /\ missing_file fs root name) ->
  exists name, In name names /\ missing_file fs root name
    /\ check_files fs root names
       = inl (ValueError ("Missing file " ++ name
                          ++ " (JPG or PNG format) in " ++ root)).
Proof.
  unfold missing_file.
  induction names as [|n names IH]; intros (name & Hin & Hj & Hp).
  - destruct Hin.
  - cbn [check_files].
    destruct (fs_exists fs (with_suffix (joinpath root n) ".jpg")) eqn:Ej;
      [|destruct (fs_exists fs (with_suffix (joinpath root n) ".png")) eqn:Ep].
    3:{ exists n. cbn [negb andb]. repeat split; auto. now left. }
    all: cbn [negb andb];
      destruct Hin as [->|Hin]; [congruence|];
      destruct IH as (name' & Hin' & Hm' & Hc');
      [exists name; auto|];
      exists name'; repeat split; try apply Hm'; auto; now right.
Qed.

(** The check consults which paths exist and nothing else. *)
Lemma check_reads_existence_only (fs fs' : FileSystem) (root : string) :
  (forall p, fs_exists fs p = fs_exists fs' p) ->
  check_root_dir_consistency fs root = check_root_dir_consistency fs' root.
Proof.
  intros He. unfold check_root_dir_consistency. rewrite !He.
  destruct (negb _); [reflexivity|]. destruct (negb _); [reflexivity|].
  induction singleton_assets as [|n names IH]; [reflexivity|].
  cbn [check_files]. now rewrite !He, IH.
Qed.

(** C6: if the AbilityCards folder or the AMD folder is absent, or one of
    the eight singleton assets is absent under both suffixes, construction
    raises, with a message naming a folder or file that is indeed missing;
    the run ends there, whatever the card folders list, and writes no
    file. *)
Theorem missing_asset_fails_without_writing (fs : FileSystem)
  (root out : string) (is_A4 with_bleed : bool) :
  fs_exists fs (joinpath root "AbilityCards") = false
  \/ fs_exists fs (joinpath root "AMD") = false
  \/ (exists name, In name singleton_assets /\ missing_file fs root name) ->
  exists msg,
    init fs root out is_A4 with_bleed = inl (ValueError msg)
    /\ main fs root out is_A4 with_bleed = (inl (ValueError msg), [])
    /\ ((msg = "Missing folder with the name AbilityCards in " ++ root
         /\ fs_exists fs (joinpath root "AbilityCards") = false)
        \/ (msg = "Missing folder with the name AMD in " ++ root
            /\ fs_exists fs (joinpath root "AMD") = false)
        \/ (exists name,
              In name singleton_assets /\ missing_file fs root name
              /\ msg = "Missing file " ++ name
                       ++ " (JPG or PNG format) in " ++ root))
    /\ (forall glob',
          main {| fs_exists := fs_exists fs; fs_glob := glob' |}
               root out is_A4 with_bleed
          = (inl (ValueError msg), [])).
Proof.
  intros Hmissing.
  assert (exists msg,
            check_root_dir_consistency fs root = inl (ValueError msg)
            /\ ((msg = "Missing folder with the name AbilityCards in " ++ root
                 /\ fs_exists fs (joinpath root "AbilityCards") = false)
                \/ (msg = "Missing folder with the name AMD in " ++ root
                    /\ fs_exists fs (joinpath root "AMD") = false)
                \/ (exists name,
                      In name singleton_assets /\ missing_file fs root name
                      /\ msg = "Missing file " ++ name
                               ++ " (JPG or PNG format) in " ++ root)))
    as (msg & Hcheck & Hmsg).
  { unfold check_root_dir_consistency.
    destruct (fs_exists fs (joinpath root "AbilityCards")) eqn:Eab;
      [|eexists; split; [reflexivity | left; split; reflexivity]].
    destruct (fs_exists fs (joinpath root "AMD")) eqn:Eamd;
      [|eexists; split; [reflexivity | right; left; split; reflexivity]].
    cbn [negb].
    destruct Hmissing as [H|[H|H]]; try discriminate.
    apply check_files_missing in H. destruct H as (name & Hin & Hm & Hc).
    eexists. split; [exact Hc|]. right; right. exists name. auto. }
  exists msg. unfold main, run, init. rewrite Hcheck.
  repeat split; try exact Hmsg.
  intros glob'.
  rewrite (check_reads_existence_only
             {| fs_exists := fs_exists fs; fs_glob := glob' |} fs root)
    by reflexivity.
  now rewrite Hcheck.
Qed.

Lemma missing_asset_fails_without_writing_witness :
  fs_exists no_amd_folder_fs (joinpath "r" "AMD") = false
  /\ exists msg,
       main no_amd_folder_fs "r" "out.tex" true true
       = (inl (ValueError msg), []).
Proof.
  split; [reflexivity|].
  destruct (missing_asset_fails_without_writing no_amd_folder_fs
              "r" "out.tex" true true (or_intror (or_introl eq_refl)))
    as (msg & _ & Hmain & _).
  exists msg. exact Hmain.
Defined.

(** The run on the folder without [AMD], evaluated. *)
Example missing_amd_folder_run :
  main no_amd_folder_fs "r" "out.tex" true true
  = (inl (ValueError "Missing folder with the name AMD in r"), []).
Proof. reflexivity. Qed.

(** ** The document as a whole *)

(** C7: on a folder that passes the check, the run writes one file, whose
    text is the header, the ability-card section, the AMD-category
    section, the mat and mini section, the character-sheet section and
    the document end, in this order, whatever the three card folders list.
    The header opens the document class with [a4paper] under the A4 flag
    and [letterpaper] otherwise, asks for landscape, and switches page
    numbering off. *)
Theorem document_sections_in_fixed_order (fs : FileSystem)
  (root out : string) (is_A4 with_bleed : bool) :
  check_root_dir_consistency fs root = inr tt ->
  let self := {| path_to_root_dir := root; output_path := out;
                 is_a4 := is_A4; has_bleed := with_bleed;
                 rotate_amd_cards := true |} in
  init fs root out is_A4 with_bleed = inr self
  /\ main fs root out is_A4 with_bleed
     = (inr tt,
        [(out,
          header self
          ++ ability_cards self (ability_card_paths fs self)
               (asset_path fs self "ability_card_back")
          ++ amd_cards self (all_amd_cards fs self)
               (asset_path fs self "character_token")
          ++ character_mat self (asset_path fs self "character_mat")
               (asset_path fs self "character_mat_back")
               (asset_path fs self "character_mini")
          ++ character_sheet self (asset_path fs self "character_sheet")
          ++ end_document self)])
  /\ String.prefix
       ("\documentclass[12pt,"
        ++ (if is_A4 then "a4paper" else "letterpaper")
        ++ ",notitlepage,landscape]{article}")
       (header self) = true
  /\ contains "a4paper" (header self) = is_A4
  /\ contains "letterpaper" (header self) = negb is_A4
  /\ contains "\pagenumbering{gobble}" (header self) = true
  /\ end_document self = "\end{document}".
Proof.
  intros Hcheck. cbv zeta. unfold main, run, init. rewrite Hcheck.
  split; [reflexivity|]. split.
  - unfold generate_latex_file, latex_code, ability_card_paths, asset_path.
    cbv beta zeta. cbn [map nth path_to_root_dir output_path].
    rewrite !append_assoc. reflexivity.
  - repeat split; destruct is_A4; vm_compute; reflexivity.
Qed.

Lemma document_sections_in_fixed_order_witness :
  check_root_dir_consistency sample_fs "r" = inr tt
  /\ init sample_fs "r" "out.tex" true true = inr sample_generator.
Proof.
  split; [reflexivity|].
  exact (proj1 (document_sections_in_fixed_order sample_fs "r" "out.tex"
                  true true eq_refl)).
Defined.

(** The text of the document, section by section. *)
Lemma latex_code_sections (fs : FileSystem) (self : LatexFileGenerator) :
  latex_code fs self
  = header self
    ++ ability_cards self (ability_card_paths fs self)
         (asset_path fs self "ability_card_back")
    ++ amd_cards self (all_amd_cards fs self)
         (asset_path fs self "character_token")
    ++ character_mat self (asset_path fs self "character_mat")
         (asset_path fs self "character_mat_back")
         (asset_path fs self "character_mini")
    ++ character_sheet self (asset_path fs self "character_sheet")
    ++ end_document self.
Proof.
  unfold latex_code, ability_card_paths, asset_path.
  cbv zeta. cbn [map nth]. rewrite !append_assoc. reflexivity.
Qed.

(** The images the document includes under the options of the ability
    cards are those of the ability-card section. *)
Lemma ability_images_document (fs : FileSystem) (self : LatexFileGenerator) :
  filter (has_options ability_options) (document_markup fs self)
  = flat_map (fun front =>
      (map (Graphics false ability_options) front
       ++ repeat (Graphics false ability_options
                    (asset_path fs self "ability_card_back"))
            (length front))%list)
      (ability_pages self (ability_card_paths fs self)).
Proof.
  unfold document_markup. rewrite !filter_app.
  unfold ability_section, amd_section.
  rewrite select_ability_cards by reflexivity.
  rewrite select_none_amd_cards by reflexivity.
  replace (filter (has_options ability_options) (mat_section fs self))
    with (@nil markup) by reflexivity.
  replace (filter (has_options ability_options) (sheet_section fs self))
    with (@nil markup) by reflexivity.
  cbn [filter has_options app]. rewrite !app_nil_r.
  apply flat_map_ext. intros front.
  rewrite !filter_map_all by reflexivity. now rewrite map_repeat.
Qed.

(** The images the document includes under the options of the
    AMD-category cards are the members of the paginated sequence. *)
Lemma amd_images_document (fs : FileSystem) (self : LatexFileGenerator) :
  amd_card_images self (document_markup fs self)
  = map (Graphics false (amd_options self)) (all_amd_cards fs self).
Proof.
  unfold amd_card_images, document_markup. rewrite !filter_app.
  fold (amd_card_images self (amd_section fs self)).
  unfold amd_section at 1. rewrite amd_card_images_section.
  unfold ability_section.
  rewrite select_none_ability_cards by reflexivity.
  assert (filter (has_options (amd_options self)) (mat_section fs self) = []
          /\ filter (has_options (amd_options self)) (sheet_section fs self) = [])
    as [-> ->]
    by (unfold amd_options; destruct (rotate_amd_cards self);
        split; reflexivity).
  cbn [filter has_options app]. now rewrite !app_nil_r.
Qed.

(** C8: each of the three listings is embedded in the order of its sorted
    paths.  The sorted list is a rearrangement of the listing in which
    every path stands before or at every later one.  The text of the
    document is the header, then what [ability_cards] returns for the
    sanitized sorted AbilityCards listing, then what [amd_cards] returns
    for the sequence that begins with the sanitized sorted AMD listing
    followed by the sanitized sorted NON_AMD listing, then the other
    sections.  The text of the ability-card section is that of its pages,
    whose front pages include, page after page, the sorted cards in
    order; the images the document includes under the options of the
    AMD-category cards are the members of the sequence, in order.  A
    directory listed in another order gives the same text. *)
Theorem card_fronts_in_sorted_order (fs : FileSystem)
  (self : LatexFileGenerator) :
  let root := path_to_root_dir self in
  let cards := sorted_images fs (joinpath root "AbilityCards") in
  let amd := sorted_images fs (joinpath root "AMD") in
  let non_amd := sorted_images fs (joinpath root "NON_AMD") in
  let back := asset_path fs self "ability_card_back" in
  let token := asset_path fs self "character_token" in
  (forall dir,
     StronglySorted path_le (sorted_images fs dir)
     /\ Permutation (listing fs dir) (sorted_images fs dir))
  /\ latex_code fs self
     = header self
       ++ ability_cards self (map sanitize_path cards) back
       ++ amd_cards self (all_amd_cards fs self) token
       ++ character_mat self (asset_path fs self "character_mat")
            (asset_path fs self "character_mat_back")
            (asset_path fs self "character_mini")
       ++ character_sheet self (asset_path fs self "character_sheet")
       ++ end_document self
  /\ ability_cards self (map sanitize_path cards) back
     = Py.join
         (map (fun front =>
                 ability_cards_one_page self front
                 ++ ability_cards_one_page self (repeat back (length front)))
              (ability_pages self (map sanitize_path cards)))
  /\ concat (ability_pages self (map sanitize_path cards))
     = map sanitize_path cards
  /\ (forall front,
        render (ability_cards_one_page_markup self front)
        = ability_cards_one_page self front
        /\ graphics (ability_cards_one_page_markup self front)
           = map (Graphics false ability_options) front)
  /\ all_amd_cards fs self
     = (map sanitize_path amd ++ map sanitize_path non_amd
        ++ repeat (asset_path fs self "amd_back") (length amd)
        ++ repeat (asset_path fs self "non_amd_back") (length non_amd))%list
  /\ render (ability_section fs self)
     = ability_cards self (map sanitize_path cards) back
  /\ render (amd_section fs self)
     = amd_cards self (all_amd_cards fs self) token
  /\ render (document_markup fs self) = latex_code fs self
  /\ filter (has_options ability_options) (document_markup fs self)
     = flat_map (fun front =>
         (map (Graphics false ability_options) front
          ++ repeat (Graphics false ability_options back) (length front))%list)
         (ability_pages self (map sanitize_path cards))
  /\ amd_card_images self (document_markup fs self)
     = map (Graphics false (amd_options self)) (all_amd_cards fs self)
  /\ firstn (length amd + length non_amd)
       (amd_card_images self (document_markup fs self))
     = map (Graphics false (amd_options self))
         (map sanitize_path amd ++ map sanitize_path non_amd)%list
  /\ ability_section fs self
     = flat_map (fun front =>
         (ability_cards_one_page_markup self front
          ++ ability_cards_one_page_markup self
               (repeat (asset_path fs self "ability_card_back")
                       (length front)))%list)
         (ability_pages self (map sanitize_path cards))
  /\ flat_map (fun front => graphics (ability_cards_one_page_markup self front))
       (ability_pages self (map sanitize_path cards))
     = map (Graphics false ability_options) (map sanitize_path cards)
  /\ firstn (length amd + length non_amd)
       (amd_card_images self (amd_section fs self))
     = map (Graphics false (amd_options self))
         (map sanitize_path amd ++ map sanitize_path non_amd)%list
  /\ (forall fs',
        (forall p, fs_exists fs p = fs_exists fs' p) ->
        (forall dir, Permutation (listing fs dir) (listing fs' dir)) ->
        latex_code fs self = latex_code fs' self).
Proof.
  cbv zeta.
  assert (forall images,
            images = map (Graphics false (amd_options self))
                       (all_amd_cards fs self) ->
            firstn (length (sorted_images fs
                              (joinpath (path_to_root_dir self) "AMD"))
                    + length (sorted_images fs
                                (joinpath (path_to_root_dir self) "NON_AMD")))
              images
            = map (Graphics false (amd_options self))
                (map sanitize_path
                   (sorted_images fs (joinpath (path_to_root_dir self) "AMD"))
                 ++ map sanitize_path
                      (sorted_images fs
                         (joinpath (path_to_root_dir self) "NON_AMD")))%list)
    as Hfronts.
  { intros images ->. rewrite all_amd_cards_flat.
    cbv zeta. rewrite app_assoc, map_app.
    rewrite <- (length_map sanitize_path
                  (sorted_images fs (joinpath (path_to_root_dir self) "AMD"))).
    rewrite <- (length_map sanitize_path
                  (sorted_images fs (joinpath (path_to_root_dir self) "NON_AMD"))).
    rewrite <- length_app.
    rewrite <- (length_map (Graphics false (amd_options self))).
    now rewrite firstn_app, Nat.sub_diag, firstn_all, firstn_0, app_nil_r. }
  split; [apply sorted_images_spec|].
  split; [apply latex_code_sections|].
  split; [apply ability_cards_by_page|].
  split; [apply concat_ability_pages|].
  split; [intros front; split;
          [apply render_ability_cards_one_page | apply graphics_ability_page]|].
  split; [apply all_amd_cards_flat|].
  split; [apply render_ability_cards|].
  split; [apply render_amd_cards|].
  split; [apply render_document|].
  split; [apply ability_images_document|].
  split; [apply amd_images_document|].
  split; [apply Hfronts, amd_images_document|].
  split; [reflexivity|].
  split; [|split].
  - rewrite (flat_map_ext _
      (fun front => map (Graphics false ability_options) ((fun p => p) front))).
    2:{ intros front. apply graphics_ability_page. }
    now rewrite flat_map_map_concat, map_id, concat_ability_pages.
  - apply Hfronts. unfold amd_section. apply amd_card_images_section.
  - intros fs'. apply latex_code_listing_order.
Qed.

Lemma card_fronts_in_sorted_order_witness :
  sorted_images sample_fs "r/AMD" = ["r/AMD/a.jpg"; "r/AMD/a.png"; "r/AMD/b c.jpg"]
  /\ latex_code sample_fs sample_generator
     = latex_code sample_fs_reordered sample_generator.
Proof.
  split; [reflexivity|].
  apply (proj2 (proj2 (proj2 (proj2 (proj2 (proj2 (proj2 (proj2 (proj2
          (proj2 (proj2 (proj2 (proj2 (proj2 (proj2
           (card_fronts_in_sorted_order sample_fs sample_generator)))))))))))))))).
  - reflexivity.
  - intros dir. unfold listing, sample_fs_reordered. cbn [fs_glob].
    apply Permutation_app; apply Permutation_rev.
Defined.

(** * Further properties of the script *)

(** ** [sanitize_path] *)

Lemma sanitize_path_cons (c : ascii) (s : string) :
  sanitize_path (String c s)
  = if Ascii.eqb c "\" then String "/" (sanitize_path s)
    else if Ascii.eqb c " " then String "\" (String " " (sanitize_path s))
    else String c (sanitize_path s).
Proof.
  unfold sanitize_path. cbn [Py.replace].
  destruct (Ascii.eqb c "\") eqn:Eb.
  - reflexivity.
  - cbn [Py.replace]. destruct (Ascii.eqb c " "); reflexivity.
Qed.

Lemma sanitize_path_escapes (p : string) :
  well_escaped (sanitize_path p) = true.
Proof.
  induction p as [|c p IH]; [reflexivity|].
  rewrite sanitize_path_cons.
  destruct (Ascii.eqb c "\") eqn:Eb; [exact IH|].
  destruct (Ascii.eqb c " ") eqn:Es.
  - cbn [well_escaped]. exact IH.
  - cbn [well_escaped]. now rewrite Eb, Es.
Qed.

(** X1: whatever the path, the sanitized text holds no raw space and no
    backslash but the one that escapes a space: every backslash is
    followed by a space, every space preceded by a backslash; and the
    text grows by one character per space of the path. *)
Theorem sanitize_path_well_escaped (p : string) :
  well_escaped (sanitize_path p) = true
  /\ String.length (sanitize_path p)
     = String.length p
       + length (filter (Ascii.eqb " ") (list_ascii_of_string p)).
Proof.
  split; [apply sanitize_path_escapes|].
  induction p as [|c p IH]; [reflexivity|].
  rewrite sanitize_path_cons. cbn [list_ascii_of_string filter String.length].
  rewrite (Ascii.eqb_sym " " c).
  destruct (Ascii.eqb c "\") eqn:Eb.
  - apply Ascii.eqb_eq in Eb. subst c. cbn [String.length Ascii.eqb].
    cbn. now rewrite IH.
  - destruct (Ascii.eqb c " "); cbn [String.length length]; rewrite IH; lia.
Qed.

(** X2: the paths that [sanitize_path] leaves as they are are exactly
    those with neither a space nor a backslash. *)
Theorem sanitize_path_fixes_plain_paths (p : string) :
  sanitize_path p = p <-> plain p = true.
Proof.
  induction p as [|c p IH]; [now split|].
  rewrite sanitize_path_cons. cbn [plain].
  destruct (Ascii.eqb c "\") eqn:Eb.
  - apply Ascii.eqb_eq in Eb. subst c. split; intros H; discriminate H.
  - destruct (Ascii.eqb c " ") eqn:Es.
    + apply Ascii.eqb_eq in Es. subst c. split; intros H; discriminate H.
    + cbn [negb andb]. split; intros H.
      * injection H as H. now apply IH.
      * f_equal. now apply IH.
Qed.

(** X3: two paths without backslash that sanitize to the same text are
    the same path. *)
Theorem sanitize_path_injective (p q : string) :
  no_backslash p = true -> no_backslash q = true ->
  sanitize_path p = sanitize_path q -> p = q.
Proof.
  revert q. induction p as [|c p IH]; intros [|d q]; cbn [no_backslash];
    rewrite ?sanitize_path_cons; intros Hp Hq H.
  - reflexivity.
  - apply andb_prop in Hq. destruct Hq as [Hd _].
    apply negb_true_iff in Hd. rewrite Hd in H.
    destruct (Ascii.eqb d " "); discriminate H.
  - apply andb_prop in Hp. destruct Hp as [Hc _].
    apply negb_true_iff in Hc. rewrite Hc in H.
    destruct (Ascii.eqb c " "); discriminate H.
  - apply andb_prop in Hp. destruct Hp as [Hc Hp].
    apply andb_prop in Hq. destruct Hq as [Hd Hq].
    apply negb_true_iff in Hc, Hd. rewrite Hc, Hd in H.
    destruct (Ascii.eqb c " ") eqn:Ec; destruct (Ascii.eqb d " ") eqn:Ed.
    + apply Ascii.eqb_eq in Ec, Ed. subst. injection H as H.
      f_equal. now apply IH.
    + injection H as H1 _. subst d. discriminate Hd.
    + injection H as H1 _. subst c. discriminate Hc.
    + injection H as H1 H2. subst. f_equal. now apply IH.
Qed.

Lemma sanitize_path_injective_witness :
  no_backslash "r/AMD/a b.jpg" = true
  /\ sanitize_path "r/AMD/a b.jpg" = "r/AMD/a\ b.jpg"
  /\ "r/AMD/a b.jpg" = "r/AMD/a b.jpg".
Proof.
  split; [reflexivity|]. split; [reflexivity|].
  exact (sanitize_path_injective "r/AMD/a b.jpg" "r/AMD/a b.jpg"
           eq_refl eq_refl eq_refl).
Defined.

(** ** [check_root_dir_consistency] and the constructor *)

Lemma check_files_passes_iff (fs : FileSystem) (root : string)
  (names : list string) :
  check_files fs root names = inr tt
  <-> forall name, In name names ->
        fs_exists fs (with_suffix (joinpath root name) ".jpg") = true
        \/ fs_exists fs (with_suffix (joinpath root name) ".png") = true.
Proof.
  induction names as [|n names IH]; cbn [check_files].
  - split; [intros _ name [] | reflexivity].
  - destruct (fs_exists fs (with_suffix (joinpath root n) ".jpg")) eqn:Ej;
      [|destruct (fs_exists fs (with_suffix (joinpath root n) ".png")) eqn:Ep];
      cbn [negb andb].
    3:{ split; [discriminate|]. intros H.
        destruct (H n (or_introl eq_refl)); congruence. }
    all: rewrite IH; split;
      [ intros H name [<-|Hin]; [auto | now apply H]
      | intros H name Hin; apply H; now right ].
Qed.

Lemma check_passes_iff (fs : FileSystem) (root : string) :
  check_root_dir_consistency fs root = inr tt <-> complete_directory fs root.
Proof.
  unfold check_root_dir_consistency, complete_directory.
  destruct (fs_exists fs (joinpath root "AbilityCards")); cbn [negb].
  2:{ split; [discriminate | intros [H _]; discriminate H]. }
  destruct (fs_exists fs (joinpath root "AMD")); cbn [negb].
  2:{ split; [discriminate | intros (_ & H & _); discriminate H]. }
  rewrite check_files_passes_iff. split; [auto | now intros (_ & _ & H)].
Qed.


(** X5: the exception names the first thing missing in the order of the
    check: the AbilityCards folder before all else, then the AMD folder,
    then the singleton assets in the order of their list. *)
Theorem check_reports_first_missing (fs : FileSystem) (root : string) :
  (fs_exists fs (joinpath root "AbilityCards") = false ->
   check_root_dir_consistency fs root
   = inl (ValueError ("Missing folder with the name AbilityCards in " ++ root)))
  /\ (fs_exists fs (joinpath root "AbilityCards") = true ->
      fs_exists fs (joinpath root "AMD") = false ->
      check_root_dir_consistency fs root
      = inl (ValueError ("Missing folder with the name AMD in " ++ root)))
  /\ (forall present name rest,
        singleton_assets = (present ++ name :: rest)%list ->
        fs_exists fs (joinpath root "AbilityCards") = true ->
        fs_exists fs (joinpath root "AMD") = true ->
        (forall n, In n present ->
           fs_exists fs (with_suffix (joinpath root n) ".jpg") = true
           \/ fs_exists fs (with_suffix (joinpath root n) ".png") = true) ->
        missing_file fs root name ->
        check_root_dir_consistency fs root
        = inl (ValueError ("Missing file " ++ name
                           ++ " (JPG or PNG format) in " ++ root))).
Proof.
  unfold check_root_dir_consistency. repeat split.
  - now intros ->.
  - now intros -> ->.
  - intros present name rest -> -> -> Hpresent [Hj Hp]. cbn [negb].
    induction present as [|n present IH]; cbn [app check_files].
    + now rewrite Hj, Hp.
    + destruct (Hpresent n (or_introl eq_refl)) as [-> | ->];
        cbn [negb andb]; rewrite ?andb_false_r;
        apply IH; intros m Hm; apply Hpresent; now right.
Qed.

Lemma check_reports_first_missing_witness :
  fs_exists no_amd_folder_fs (joinpath "r" "AbilityCards") = true
  /\ fs_exists no_amd_folder_fs (joinpath "r" "AMD") = false
  /\ check_root_dir_consistency no_amd_folder_fs "r"
     = inl (ValueError ("Missing folder with the name AMD in " ++ "r")).
Proof.
  split; [reflexivity|]. split; [reflexivity|].
  exact (proj1 (proj2 (check_reports_first_missing no_amd_folder_fs "r"))
           eq_refl eq_refl).
Defined.

(** The paths whose existence the check asks for. *)
Lemma check_reads_probed_paths (fs fs' : FileSystem) (root : string) :
  fs_exists fs (joinpath root "AbilityCards")
  = fs_exists fs' (joinpath root "AbilityCards") ->
  fs_exists fs (joinpath root "AMD") = fs_exists fs' (joinpath root "AMD") ->
  (forall name ext, In name singleton_assets -> In ext [".jpg"; ".png"] ->
     fs_exists fs (with_suffix (joinpath root name) ext)
     = fs_exists fs' (with_suffix (joinpath root name) ext)) ->
  check_root_dir_consistency fs root = check_root_dir_consistency fs' root.
Proof.
  intros Hab Hamd Hfiles. unfold check_root_dir_consistency.
  rewrite Hab, Hamd.
  destruct (negb _); [reflexivity|]. destruct (negb _); [reflexivity|].
  revert Hfiles. generalize singleton_assets. intros names Hfiles.
  induction names as [|n names IH]; [reflexivity|].
  cbn [check_files].
  rewrite (Hfiles n ".jpg"), (Hfiles n ".png"), IH;
    cbn [In]; auto.
  intros name ext Hin. apply Hfiles. now right.
Qed.

Lemma eqb_append_head (a x y : string) :
  String.eqb (a ++ x) (a ++ y) = String.eqb x y.
Proof.
  induction a as [|c a IH]; [reflexivity|].
  cbn [String.append String.eqb]. now rewrite Ascii.eqb_refl.
Qed.

(** X6: the check never asks whether the NON_AMD folder exists: with the
    folder there or not, its outcome is the same. *)
Theorem check_ignores_non_amd_folder (fs : FileSystem) (root : string)
  (there : bool) :
  check_root_dir_consistency
    {| fs_exists := fun p =>
         if String.eqb p (joinpath root "NON_AMD") then there
         else fs_exists fs p;
       fs_glob := fs_glob fs |} root
  = check_root_dir_consistency fs root.
Proof.
  apply check_reads_probed_paths; cbn [fs_exists];
    unfold joinpath, with_suffix.
  - now rewrite eqb_append_head.
  - now rewrite eqb_append_head.
  - intros name ext Hname Hext. rewrite append_assoc, eqb_append_head.
    replace (String.eqb (name ++ ext) "NON_AMD") with false;
      [reflexivity|].
    cbn [In] in Hname, Hext.
    repeat (destruct Hname as [<-|Hname];
            [destruct Hext as [<-|[<-|[]]]; reflexivity|]).
    destruct Hname.
Qed.

(** X7: on a directory that passes the check, the path resolved for each
    singleton asset is one that exists, the [.jpg] whenever there is
    one. *)
Theorem resolved_assets_exist (fs : FileSystem) (root name : string) :
  check_root_dir_consistency fs root = inr tt ->
  In name singleton_assets ->
  fs_exists fs (jpg_or_png fs root name) = true
  /\ (fs_exists fs (with_suffix (joinpath root name) ".jpg") = true ->
      jpg_or_png fs root name = with_suffix (joinpath root name) ".jpg").
Proof.
  intros Hcheck Hin. apply check_passes_iff in Hcheck.
  destruct Hcheck as (_ & _ & Hfiles). specialize (Hfiles name Hin).
  unfold jpg_or_png. cbv zeta.
  destruct (fs_exists fs (with_suffix (joinpath root name) ".jpg")) eqn:Ej;
    cbn [negb].
  - now rewrite Ej.
  - destruct Hfiles as [H|H]; [discriminate H|]. split; [exact H|discriminate].
Qed.

Lemma resolved_assets_exist_witness :
  check_root_dir_consistency sample_fs "r" = inr tt
  /\ In "character_mat" singleton_assets
  /\ jpg_or_png sample_fs "r" "character_mat" = "r/character_mat.png"
  /\ fs_exists sample_fs (jpg_or_png sample_fs "r" "character_mat") = true.
Proof.
  assert (In "character_mat" singleton_assets) as Hin
    by (cbn; tauto).
  split; [reflexivity|]. split; [exact Hin|]. split; [reflexivity|].
  exact (proj1 (resolved_assets_exist sample_fs "r" "character_mat"
                  eq_refl Hin)).
Defined.

(** ** The grid of one page *)

Section Rows.

(** The card loop shared by [ability_cards_one_page] and
    [amd_cards_one_page]: an image per turn, a separator unless the image
    is the last of the page or the one at [break], a row break after the
    image at [break]. *)
Variables indent options : string.
Variable break : nat.
Variable paths : list string.

Let turn (i : nat) : list markup :=
  ([Raw indent; Graphics false options (nth i paths "")]
   ++ (if negb (Nat.eqb i (length paths - 1)) && negb (Nat.eqb i break)
       then [hspace] else [])
   ++ (if Nat.eqb i break then [row_break] else []))%list.

(** What the turns from position [k] on emit for the cards [l] left. *)
Let rows_from (k : nat) (l : list string) : list markup :=
  if Nat.ltb break k then image_row indent options l
  else (image_row indent options (firstn (S break - k) l)
        ++ (if Nat.leb (S break - k) (length l)
            then row_break :: image_row indent options (skipn (S break - k) l)
            else []))%list.

Lemma turns_from (l done : list string) :
  paths = (done ++ l)%list ->
  flat_map turn (seq (length done) (length l)) = rows_from (length done) l.
Proof.
  revert done. induction l as [|x l IH]; intros done Hpaths.
  - unfold rows_from. destruct (Nat.ltb break (length done)) eqn:E;
      [reflexivity|].
    apply Nat.ltb_ge in E. rewrite firstn_nil, skipn_nil. cbn [image_row app length].
    replace (Nat.leb (S break - length done) 0) with false; [reflexivity|].
    symmetry. apply Nat.leb_gt. lia.
  - cbn [length seq flat_map].
    assert (paths = ((done ++ [x]) ++ l)%list) as Hpaths'
      by now rewrite <- app_assoc.
    pose proof (IH (done ++ [x])%list Hpaths') as IH'.
    rewrite length_app in IH'. cbn [length] in IH'.
    rewrite Nat.add_1_r in IH'. rewrite IH'. clear IH IH'.
    assert (nth (length done) paths "" = x) as Hx
      by (rewrite Hpaths; apply nth_middle).
    assert (length paths - 1 = length done + length l) as Hlast
      by (rewrite Hpaths, length_app; cbn [length]; lia).
    unfold turn, rows_from. rewrite Hx, Hlast.
    destruct (Nat.ltb break (length done)) eqn:E1.
    + apply Nat.ltb_lt in E1.
      replace (Nat.ltb break (S (length done))) with true
        by (symmetry; apply Nat.ltb_lt; lia).
      replace (Nat.eqb (length done) break) with false
        by (symmetry; apply Nat.eqb_neq; lia).
      destruct l as [|y l]; cbn [length negb andb app image_row].
      * now rewrite Nat.add_0_r, Nat.eqb_refl.
      * replace (Nat.eqb (length done) (length done + S (length l))) with false
          by (symmetry; apply Nat.eqb_neq; lia).
        reflexivity.
    + apply Nat.ltb_ge in E1.
      destruct (Nat.eqb (length done) break) eqn:E2.
      * apply Nat.eqb_eq in E2.
        replace (Nat.ltb break (S (length done))) with true
          by (symmetry; apply Nat.ltb_lt; lia).
        replace (S break - length done) with 1 by lia.
        rewrite andb_false_r. cbn [firstn skipn length Nat.leb app image_row].
        reflexivity.
      * apply Nat.eqb_neq in E2.
        replace (Nat.ltb break (S (length done))) with false
          by (symmetry; apply Nat.ltb_ge; lia).
        replace (S break - length done) with (S (break - length done)) by lia.
        replace (S break - S (length done)) with (break - length done) by lia.
        cbn [firstn skipn length Nat.leb negb andb app].
        destruct l as [|y l].
        -- rewrite Nat.add_0_r, Nat.eqb_refl, firstn_nil, skipn_nil.
           cbn [negb andb app image_row length].
           replace (Nat.leb (break - length done) 0) with false
             by (symmetry; apply Nat.leb_gt; lia).
           reflexivity.
        -- replace (Nat.eqb (length done) (length done + length (y :: l)))
             with false
             by (symmetry; apply Nat.eqb_neq; cbn [length]; lia).
           cbn [negb andb app].
           destruct (break - length done) as [|d] eqn:Ed; [lia|].
           cbn [firstn image_row app]. reflexivity.
Qed.

(** The loop lays the cards out as a first row of up to [break + 1]
    images, then, once the image at [break] is reached, a row break and
    all remaining images in a second row. *)
Lemma rows_of_loop :
  flat_map turn (Py.range (length paths))
  = (image_row indent options (firstn (S break) paths)
     ++ (if Nat.leb (S break) (length paths)
         then row_break :: image_row indent options (skipn (S break) paths)
         else []))%list.
Proof.
  pose proof (turns_from paths [] eq_refl) as H.
  cbn [length] in H. unfold Py.range. rewrite H. unfold rows_from.
  cbn [Nat.ltb Nat.leb]. now rewrite Nat.sub_0_r.
Qed.

End Rows.

Lemma ability_page_grid (self : LatexFileGenerator) (card_paths : list string) :
  flat_map (ability_card_markup self card_paths)
    (Py.range (length card_paths))
  = (image_row "   " ability_options
       (firstn (cards_per_line self) card_paths)
     ++ (if Nat.leb (cards_per_line self) (length card_paths)
         then row_break
              :: image_row "   " ability_options
                   (skipn (cards_per_line self) card_paths)
         else []))%list.
Proof.
  pose proof (rows_of_loop "   " ability_options (cards_per_line self - 1)
                card_paths) as H.
  cbv zeta in H.
  replace (S (cards_per_line self - 1)) with (cards_per_line self) in H
    by (pose proof (cards_per_line_pos self); lia).
  exact H.
Qed.

Lemma amd_page_grid (self : LatexFileGenerator) (amd_paths : list string) :
  flat_map (amd_card_markup self amd_paths) (Py.range (length amd_paths))
  = (image_row "  " (amd_options self) (firstn 5 amd_paths)
     ++ (if Nat.leb 5 (length amd_paths)
         then row_break :: image_row "  " (amd_options self) (skipn 5 amd_paths)
         else []))%list.
Proof.
  pose proof (rows_of_loop "  " (amd_options self) 4 amd_paths) as H.
  cbv zeta in H. exact H.
Qed.

(** X8: a page of ability cards is the figure opening, a first row of up
    to [cards_per_line] images with a separator between neighbours and,
    once that row is full, a row break and the remaining images as a
    second row, then the figure end.  A page of exactly [cards_per_line]
    cards therefore ends on a row break and an empty row.  On the pages
    that [ability_cards] cuts, neither row holds more than
    [cards_per_line] images. *)
Theorem ability_page_rows (self : LatexFileGenerator) (card_paths : list string) :
  let per_line := cards_per_line self in
  let row := image_row "   " ability_options in
  ability_cards_one_page self card_paths
  = render
      (Raw ("\begin{figure}[ht]
  \centering
\setkeys{Gin}{width=" ++ (if has_bleed self then "6.99cm" else "6.35cm") ++ "}
\makebox[1\textwidth]{
")
       :: row (firstn per_line card_paths)
       ++ (if Nat.leb per_line (length card_paths)
           then row_break :: row (skipn per_line card_paths) else [])
       ++ [page_end])%list
  /\ Forall (fun page => length (firstn per_line page) <= per_line
                         /\ length (skipn per_line page) <= per_line)
       (ability_pages self card_paths).
Proof.
  cbv zeta. split.
  - rewrite <- render_ability_cards_one_page.
    unfold ability_cards_one_page_markup.
    rewrite ability_page_grid, <- app_assoc. reflexivity.
  - pose proof (ability_pages_capacity self card_paths) as Hcap.
    rewrite Forall_forall in *. intros page Hin. specialize (Hcap page Hin).
    rewrite length_firstn, length_skipn. lia.
Qed.

(** X9: a page of AMD-category cards is the figure opening, a first row
    of up to five images, after the fifth image a row break and the
    remaining images as a second row, then, when a token path is given,
    a third row holding five times the token, a separator, the mirrored
    token and a separator (the last separator included), then the figure
    end.  On the pages that [amd_cards] cuts, neither card row holds more
    than five images. *)
Theorem amd_page_rows (self : LatexFileGenerator) (amd_paths : list string)
  (token_path : option string) :
  let row := image_row "  " (amd_options self) in
  amd_cards_one_page self amd_paths token_path
  = render
      (Raw "\begin{figure}[ht]
  \centering
\setkeys{Gin}{width=6.9cm}
\makebox[1\textwidth]{
"
       :: row (firstn 5 amd_paths)
       ++ (if Nat.leb 5 (length amd_paths)
           then row_break :: row (skipn 5 amd_paths) else [])
       ++ match token_path with
          | Some token_path =>
              Raw ("
}
\makebox[1\textwidth]{" ++ Py.nl) :: token_row token_path
          | None => []
          end
       ++ [page_end])%list
  /\ Forall (fun page => length (firstn 5 page) <= 5
                         /\ length (skipn 5 page) <= 5)
       (amd_pages amd_paths).
Proof.
  cbv zeta. split.
  - rewrite <- render_amd_cards_one_page.
    unfold amd_cards_one_page_markup.
    rewrite amd_page_grid, <- app_assoc.
    destruct token_path as [t|]; reflexivity.
  - pose proof (amd_pages_capacity amd_paths) as Hcap.
    rewrite Forall_forall in *. intros page Hin. specialize (Hcap page Hin).
    rewrite length_firstn, length_skipn. lia.
Qed.

(** ** Page sizes and image totals *)

Lemma nth_ability_pages (self : LatexFileGenerator) (card_paths : list string)
  (i : nat) :
  i < length (ability_pages self card_paths) ->
  nth i (ability_pages self card_paths) []
  = Py.slice card_paths (2 * cards_per_line self * i)
                        (2 * cards_per_line self * (i + 1)).
Proof.
  rewrite length_ability_pages. intros Hi. unfold ability_pages. cbv zeta.
  set (page := fun i => Py.slice card_paths (2 * cards_per_line self * i)
                                            (2 * cards_per_line self * (i + 1))).
  rewrite (nth_indep _ [] (page 0))
    by (unfold Py.range; now rewrite length_map, length_seq).
  rewrite map_nth. unfold Py.range. now rewrite seq_nth by exact Hi.
Qed.

(** X10: the text [ability_cards] returns is, for each page it cuts, the
    text of the front page followed by that of its back page.  With
    capacity [C = 2 * cards_per_line] and [N] cards it cuts [N / C + 1]
    front pages; the first [N / C] hold exactly [C] cards each and the
    last holds the [N mod C] cards left, so it is empty exactly when [C]
    divides [N]. *)
Theorem ability_pages_sizes (self : LatexFileGenerator)
  (card_paths : list string) (ability_card_back : string) :
  let C := 2 * cards_per_line self in
  let N := length card_paths in
  let pages := ability_pages self card_paths in
  ability_cards self card_paths ability_card_back
  = Py.join
      (map (fun front =>
              ability_cards_one_page self front
              ++ ability_cards_one_page self
                   (repeat ability_card_back (length front)))
           pages)
  /\ concat pages = card_paths
  /\ length pages = N / C + 1
  /\ (forall i, i < N / C -> length (nth i pages []) = C)
  /\ length (last pages []) = N mod C
  /\ (last pages [] = [] <-> N mod C = 0).
Proof.
  cbv zeta.
  pose proof (cards_per_line_pos self) as Hc.
  pose proof (Nat.div_mod_eq (length card_paths) (2 * cards_per_line self))
    as Hdm.
  pose proof (Nat.mod_upper_bound (length card_paths)
                (2 * cards_per_line self) ltac:(lia)) as Hm.
  assert (length (last (ability_pages self card_paths) [])
          = length card_paths mod (2 * cards_per_line self)) as Hlast.
  { destruct (ability_pages_count self card_paths) as (_ & _ & ->).
    rewrite length_skipn. lia. }
  split; [apply ability_cards_by_page|].
  split; [apply concat_ability_pages|].
  split; [apply length_ability_pages|]. split; [|split].
  - intros i Hi. rewrite nth_ability_pages
      by (rewrite length_ability_pages; lia).
    rewrite length_slice. nia.
  - exact Hlast.
  - rewrite <- Hlast. symmetry. apply length_zero_iff_nil.
Qed.

Lemma length_flat_map_pages {A B : Type} (f : list A -> list B)
  (pages : list (list A)) :
  (forall page, length (f page) = 2 * length page) ->
  length (flat_map f pages) = 2 * length (concat pages).
Proof.
  intros Hf. induction pages as [|page pages IH]; [reflexivity|].
  cbn [flat_map concat]. rewrite !length_app, Hf, IH. lia.
Qed.

Lemma graphics_ability_cards (self : LatexFileGenerator)
  (card_paths : list string) (back : string) :
  graphics (ability_cards_markup self card_paths back)
  = flat_map (fun page =>
      (map (Graphics false ability_options) page
       ++ repeat (Graphics false ability_options back) (length page))%list)
      (ability_pages self card_paths).
Proof.
  unfold graphics. rewrite select_ability_cards by reflexivity.
  apply flat_map_ext. intros page.
  rewrite !filter_map_all by reflexivity. now rewrite map_repeat.
Qed.

Lemma length_graphics_ability_cards (self : LatexFileGenerator)
  (card_paths : list string) (back : string) :
  length (graphics (ability_cards_markup self card_paths back))
  = 2 * length card_paths.
Proof.
  rewrite graphics_ability_cards.
  rewrite length_flat_map_pages, concat_ability_pages; [reflexivity|].
  intros page. rewrite length_app, length_map, repeat_length. lia.
Qed.

(** X11: the text [ability_cards] returns reads as markup whose images
    are, page after page, the cards of the page followed by as many
    copies of the back-plate; for [N] cards the section includes [2 * N]
    images, the empty pages adding none. *)
Theorem ability_section_images (self : LatexFileGenerator)
  (card_paths : list string) (back : string) :
  render (ability_cards_markup self card_paths back)
  = ability_cards self card_paths back
  /\ graphics (ability_cards_markup self card_paths back)
  = flat_map (fun page =>
      (map (Graphics false ability_options) page
       ++ repeat (Graphics false ability_options back) (length page))%list)
      (ability_pages self card_paths)
  /\ length (graphics (ability_cards_markup self card_paths back))
     = 2 * length card_paths.
Proof.
  split; [apply render_ability_cards|].
  split; [apply graphics_ability_cards | apply length_graphics_ability_cards].
Qed.

Lemma flat_map_ext_in {A B : Type} (f g : A -> list B) (l : list A) :
  (forall x, In x l -> f x = g x) -> flat_map f l = flat_map g l.
Proof.
  induction l as [|x l IH]; intros H; [reflexivity|].
  cbn [flat_map]. rewrite (H x (or_introl eq_refl)), IH; [reflexivity|].
  intros y Hy. apply H. now right.
Qed.

(** What a selection of images keeps of the AMD-category section: the
    cards it keeps, then, if there is any card, the tokens it keeps. *)
Lemma select_amd_cards (f : markup -> bool) (self : LatexFileGenerator)
  (amd_paths : list string) (token : string) :
  (forall text, f (Raw text) = false) ->
  filter f (amd_cards_markup self amd_paths token)
  = (filter f (map (Graphics false (amd_options self)) amd_paths)
     ++ match amd_paths with
        | [] => []
        | _ :: _ => filter f (token_pairs token)
        end)%list.
Proof.
  intros f_raw.
  rewrite <- (concat_amd_pages amd_paths) at 2.
  unfold amd_cards_markup, amd_pages. cbv zeta.
  rewrite filter_flat_map.
  pose proof (length_amd_pages amd_paths) as Hlen.
  destruct (amd_num_pages (length amd_paths)) as [|k] eqn:Ek.
  - apply length_zero_iff_nil, amd_pages_nil_iff in Hlen. now subst.
  - assert (amd_paths <> []) as Hne.
    { intros ->. discriminate Ek. }
    destruct amd_paths as [|a amd_paths]; [now destruct Hne|].
    set (l := a :: amd_paths) in *.
    unfold Py.range. rewrite seq_S, !map_app, flat_map_app, concat_app.
    cbn [Nat.add map flat_map concat]. rewrite !app_nil_r.
    rewrite map_app, filter_app, <- app_assoc. f_equal.
    + rewrite (flat_map_ext_in _
        (fun i => filter f (map (Graphics false (amd_options self))
                              (Py.slice l (10 * i) (10 * (i + 1)))))).
      * rewrite <- filter_flat_map, flat_map_map_concat. reflexivity.
      * intros i Hi. apply in_seq in Hi.
        rewrite select_amd_page by exact f_raw.
        replace (Nat.eqb i (S k - 1)) with false
          by (symmetry; apply Nat.eqb_neq; lia).
        cbn [negb]. now rewrite app_nil_r.
    + rewrite select_amd_page by exact f_raw.
      replace (Nat.eqb k (S k - 1)) with true
        by (symmetry; apply Nat.eqb_eq; lia).
      reflexivity.
Qed.

Lemma graphics_amd_cards (self : LatexFileGenerator)
  (amd_paths : list string) (token : string) :
  graphics (amd_cards_markup self amd_paths token)
  = (map (Graphics false (amd_options self)) amd_paths
     ++ match amd_paths with [] => [] | _ :: _ => token_pairs token end)%list.
Proof.
  unfold graphics. rewrite select_amd_cards by reflexivity.
  rewrite filter_map_all by reflexivity. reflexivity.
Qed.

(** X12: the text [amd_cards] returns for the paginated sequence reads
    as markup whose images are the cards of the sequence, in order,
    followed, when there is at least one card, by the ten token images;
    so the document, whose markup renders to the text written, holds the
    five token pairs when the AMD and NON_AMD listings are not both
    empty, and no token otherwise. *)
Theorem amd_section_images (fs : FileSystem) (self : LatexFileGenerator) :
  let cards := all_amd_cards fs self in
  let token := asset_path fs self "character_token" in
  render (amd_section fs self) = amd_cards self cards token
  /\ render (document_markup fs self) = latex_code fs self
  /\ latex_code fs self
     = header self
       ++ ability_cards self (ability_card_paths fs self)
            (asset_path fs self "ability_card_back")
       ++ amd_cards self cards token
       ++ character_mat self (asset_path fs self "character_mat")
            (asset_path fs self "character_mat_back")
            (asset_path fs self "character_mini")
       ++ character_sheet self (asset_path fs self "character_sheet")
       ++ end_document self
  /\ graphics (amd_section fs self)
  = (map (Graphics false (amd_options self)) cards
     ++ match cards with [] => [] | _ :: _ => token_pairs token end)%list
  /\ token_images (document_markup fs self)
     = match cards with [] => [] | _ :: _ => token_pairs token end
  /\ (cards = []
      <-> length (listing fs (joinpath (path_to_root_dir self) "AMD"))
          + length (listing fs (joinpath (path_to_root_dir self) "NON_AMD"))
          = 0).
Proof.
  cbv zeta. split; [apply render_amd_cards|].
  split; [apply render_document|]. split; [apply latex_code_sections|].
  split; [apply graphics_amd_cards|]. split.
  - rewrite token_images_outside_amd. unfold token_images, amd_section.
    rewrite select_amd_cards by reflexivity.
    rewrite filter_map_none by (intros x; apply (amd_options_not_token self)).
    destruct (all_amd_cards fs self); [reflexivity|].
    unfold token_pairs. cbn [repeat concat app filter has_options].
    now rewrite String.eqb_refl.
  - rewrite <- length_zero_iff_nil, length_all_amd_cards. lia.
Qed.

(** ** Every embedded path is sanitized *)

Lemma path_escaped_graphics (doc : list markup) :
  Forall path_escaped (graphics doc) -> Forall path_escaped doc.
Proof.
  unfold graphics. induction doc as [|m doc IH]; intros H; [constructor|].
  destruct m as [text|mirrored options path]; cbn [filter is_graphics] in H.
  - constructor; [exact I | now apply IH].
  - apply Forall_cons_iff in H. destruct H as [Hm H].
    constructor; [exact Hm | now apply IH].
Qed.

Lemma path_escaped_images (mirrored : bool) (options : string)
  (paths : list string) :
  Forall (fun p => well_escaped p = true) paths ->
  Forall path_escaped (map (Graphics mirrored options) paths).
Proof.
  intros H. apply Forall_map. eapply Forall_impl; [|exact H].
  intros p Hp. exact Hp.
Qed.

Lemma sanitized_paths_escaped (paths : list string) :
  Forall (fun p => well_escaped p = true) (map sanitize_path paths).
Proof.
  apply Forall_map, Forall_forall. intros p _. apply sanitize_path_escapes.
Qed.

(** X13: every image of the generated document is included under a
    sanitized path: none holds a raw space or a backslash other than the
    one escaping a space, whatever the names of the files and of the
    root directory. *)
Theorem document_paths_escaped (fs : FileSystem) (self : LatexFileGenerator) :
  render (document_markup fs self) = latex_code fs self
  /\ Forall path_escaped (document_markup fs self).
Proof.
  split; [apply render_document|].
  assert (forall name, well_escaped (asset_path fs self name) = true) as Hasset
    by (intros name; apply sanitize_path_escapes).
  unfold document_markup.
  repeat (apply Forall_app; split);
    try (repeat constructor; apply Hasset).
  - apply path_escaped_graphics. unfold ability_section.
    rewrite graphics_ability_cards. apply Forall_flat_map, Forall_forall.
    intros page Hpage. apply Forall_app. split.
    + apply path_escaped_images, Forall_forall. intros p Hp.
      assert (In p (ability_card_paths fs self)) as Hin.
      { rewrite <- (concat_ability_pages self (ability_card_paths fs self)).
        apply in_concat. exists page. now split. }
      pose proof (sanitized_paths_escaped
                    (sorted_images fs
                       (joinpath (path_to_root_dir self) "AbilityCards")))
        as Hall.
      rewrite Forall_forall in Hall. now apply Hall.
    + apply Forall_forall. intros m Hm. apply repeat_spec in Hm. subst m.
      apply Hasset.
  - apply path_escaped_graphics. unfold amd_section.
    rewrite graphics_amd_cards. apply Forall_app. split.
    + apply path_escaped_images. unfold all_amd_cards. cbv zeta.
      apply sanitized_paths_escaped.
    + destruct (all_amd_cards fs self); [constructor|].
      unfold token_pairs. cbn [repeat concat app].
      repeat constructor; apply Hasset.
Qed.

(** X14: the text written reads as the markup of the document, and the
    text of each section as the markup of that section; with [A] ability
    cards, [N] AMD cards and [M] NON_AMD cards listed, the document
    includes [2 * A + 2 * (N + M)] card and back-plate images, ten token
    images unless [N + M = 0], four images in the mat and mini section
    and four in the character-sheet section. *)
Theorem document_image_total (fs : FileSystem) (self : LatexFileGenerator) :
  let root := path_to_root_dir self in
  let A := length (listing fs (joinpath root "AbilityCards")) in
  let N := length (listing fs (joinpath root "AMD")) in
  let M := length (listing fs (joinpath root "NON_AMD")) in
  render (document_markup fs self) = latex_code fs self
  /\ document_markup fs self
     = ([Raw (header self)] ++ ability_section fs self ++ amd_section fs self
        ++ mat_section fs self ++ sheet_section fs self
        ++ [Raw (end_document self)])%list
  /\ render (ability_section fs self)
     = ability_cards self (ability_card_paths fs self)
         (asset_path fs self "ability_card_back")
  /\ render (amd_section fs self)
     = amd_cards self (all_amd_cards fs self)
         (asset_path fs self "character_token")
  /\ render (mat_section fs self)
     = character_mat self (asset_path fs self "character_mat")
         (asset_path fs self "character_mat_back")
         (asset_path fs self "character_mini")
  /\ render (sheet_section fs self)
     = character_sheet self (asset_path fs self "character_sheet")
  /\ length (graphics (ability_section fs self)) = 2 * A
  /\ length (graphics (amd_section fs self))
     = 2 * (N + M) + (if Nat.eqb (N + M) 0 then 0 else 10)
  /\ length (graphics (mat_section fs self)) = 4
  /\ length (graphics (sheet_section fs self)) = 4
  /\ length (graphics (document_markup fs self))
     = 2 * A + 2 * (N + M) + (if Nat.eqb (N + M) 0 then 0 else 10) + 8.
Proof.
  cbv zeta.
  assert (length (graphics (ability_section fs self))
          = 2 * length (listing fs (joinpath (path_to_root_dir self)
                                      "AbilityCards"))) as Hab.
  { unfold ability_section. rewrite length_graphics_ability_cards.
    unfold ability_card_paths. now rewrite length_map, length_sorted_images. }
  assert (length (graphics (amd_section fs self))
          = 2 * (length (listing fs (joinpath (path_to_root_dir self) "AMD"))
                 + length (listing fs
                             (joinpath (path_to_root_dir self) "NON_AMD")))
            + (if Nat.eqb
                    (length (listing fs (joinpath (path_to_root_dir self) "AMD"))
                     + length (listing fs
                                 (joinpath (path_to_root_dir self) "NON_AMD")))
                    0
               then 0 else 10)) as Hamd.
  { unfold amd_section. rewrite graphics_amd_cards, length_app, length_map.
    pose proof (length_all_amd_cards fs self) as Hlen. rewrite Hlen.
    set (n := length (listing fs (joinpath (path_to_root_dir self) "AMD"))
              + length (listing fs
                          (joinpath (path_to_root_dir self) "NON_AMD"))) in *.
    destruct (all_amd_cards fs self) as [|c cards]; cbn [length] in Hlen;
      destruct (Nat.eqb_spec n 0) as [E|E]; try lia; reflexivity. }
  split; [apply render_document|]. split; [reflexivity|].
  split; [apply render_ability_cards|]. split; [apply render_amd_cards|].
  split; [apply render_character_mat|]. split; [apply render_character_sheet|].
  split; [exact Hab|]. split; [exact Hamd|].
  split; [reflexivity|]. split; [reflexivity|].
  unfold document_markup, graphics. rewrite !filter_app, !length_app.
  fold (graphics (ability_section fs self)) (graphics (amd_section fs self)).
  rewrite Hab, Hamd.
  change (length (filter is_graphics (mat_section fs self))) with 4.
  change (length (filter is_graphics (sheet_section fs self))) with 4.
  cbn [filter is_graphics length]. lia.
Qed.

(** X15: the text [amd_cards] returns is empty when it cuts no page, and
    otherwise the texts of its pages, the last one with the tokens.  It
    cuts [n] cards into [n / 10] pages, plus one when ten does not divide
    [n]; every page but the last holds exactly ten cards and the last
    holds the rest, between one and ten: no page of the section is
    empty. *)
Theorem amd_pages_sizes (self : LatexFileGenerator) (amd_paths : list string)
  (character_token_path : string) :
  let n := length amd_paths in
  let pages := amd_pages amd_paths in
  amd_cards self amd_paths character_token_path
  = match pages with
    | [] => ""
    | _ :: _ =>
        Py.join (map (fun page => amd_cards_one_page self page None)
                     (removelast pages))
        ++ amd_cards_one_page self (last pages [])
             (Some character_token_path)
    end
  /\ concat pages = amd_paths
  /\ length pages = n / 10 + (if Nat.eqb (n mod 10) 0 then 0 else 1)
  /\ (forall i, i < length pages ->
        length (nth i pages [])
        = if Nat.ltb (i + 1) (length pages) then 10
          else n - 10 * (length pages - 1))
  /\ (forall i, i < length pages -> 1 <= length (nth i pages []) <= 10).
Proof.
  cbv zeta.
  pose proof (amd_num_pages_ceil (length amd_paths)) as Hceil.
  pose proof (length_amd_pages amd_paths) as Hlen.
  split; [|split; [apply concat_amd_pages|]].
  { destruct (amd_pages amd_paths) as [|page pages] eqn:Epages.
    - apply amd_pages_nil_iff in Epages. now subst.
    - rewrite <- Epages. apply amd_cards_last_page. rewrite Epages.
      discriminate. }
  split; [|split].
  - rewrite Hlen. unfold amd_num_pages. cbv zeta.
    pose proof (Nat.div_mod_eq (length amd_paths + 10 - 1) 10) as E1.
    pose proof (Nat.mod_upper_bound (length amd_paths + 10 - 1) 10
                  ltac:(lia)) as B1.
    pose proof (Nat.div_mod_eq (length amd_paths) 10) as E2.
    pose proof (Nat.mod_upper_bound (length amd_paths) 10 ltac:(lia)) as B2.
    destruct (Nat.eqb_spec (length amd_paths mod 10) 0); lia.
  - intros i Hi. rewrite nth_amd_pages by exact Hi.
    rewrite length_firstn, length_skipn, Hlen. rewrite Hlen in Hi.
    destruct (Nat.ltb_spec (i + 1) (amd_num_pages (length amd_paths))); lia.
  - intros i Hi. rewrite nth_amd_pages by exact Hi.
    rewrite length_firstn, length_skipn. rewrite Hlen in Hi. lia.
Qed.
